(** * The Jami JNI stub bridge of the Get-Together app

    A shallow embedding of [androidApp/src/main/cpp/jami_jni_stub.cpp], the
    placeholder implementation of the native methods of
    [com.gettogether.app.jami.AndroidJamiBridge], as compiled with
    [JAMI_STUB_ONLY] defined.

    Every native method is a computation in a small state-and-fault monad
    over a [World]: the one static of the translation unit
    ([g_daemonRunning]), the part of the Java heap the JNI calls of the file
    touch, and the Android log. *)

From stdpp Require Import base option list strings.
From Stdlib Require Import ZArith Lia Ascii.

Local Open Scope string_scope.
Local Open Scope Z_scope.

(** ** JNI data *)

(** A [jobject] is a reference into the Java heap, or the null reference. *)
Inductive jobject : Type :=
| NULL
| Ref (addr : nat).

Definition jstring := jobject.
Definition jobjectArray := jobject.

(** [jboolean] is an unsigned 8-bit integer and [jint] a signed 32-bit one;
    [jsize] is a [jint]. *)
Definition jboolean := Z.
Definition jint := Z.
Definition jsize := jint.

Definition JNI_FALSE : jboolean := 0.
Definition JNI_TRUE : jboolean := 1.

(** Class objects are canonical, so a [jclass] is modelled by the name of the
    class it denotes; a [jmethodID] by the method it names. *)
Inductive jclass : Type :=
| Class (name : string).

Inductive jmethodID : Type :=
| Method (cls name sig : string).

(** The objects of the Java heap that the bridge can meet. *)
Inductive JavaObject : Type :=
| JavaString (chars : string)
| JavaArray (elemClass : string) (elems : list jobject)
| JavaHashMap (entries : list (jobject * jobject)).

Definition class_of (o : JavaObject) : string :=
  match o with
  | JavaString _ => "java/lang/String"
  | JavaArray c _ => String.append "[L" (String.append c ";")
  | JavaHashMap _ => "java/util/HashMap"
  end.

(** The value a native method hands back to the virtual machine. *)
Inductive jvalue : Type :=
| JVoid
| JBoolean (z : jboolean)
| JInt (i : jint)
| JObject (l : jobject).

(** ** The Android log *)

Inductive LogPriority : Type :=
| ANDROID_LOG_INFO
| ANDROID_LOG_WARN
| ANDROID_LOG_ERROR.

Record LogRecord : Type := mkLogRecord {
  log_prio : LogPriority;
  log_tag : string;
  log_msg : string
}.

Definition LOG_TAG : string := "JamiBridge-JNI".

(** [printf]-style formatting, for the one directive the file uses. *)
Fixpoint format (fmt : string) (args : list string) : string :=
  match fmt with
  | EmptyString => EmptyString
  | String "%"%char (String "s"%char rest) =>
      match args with
      | a :: args' => String.append a (format rest args')
      | [] => format rest []
      end
  | String c rest => String c (format rest args)
  end.

(** ** The world a native call runs in *)

Record World : Type := mkWorld {
  g_daemonRunning : bool;
  heap : list JavaObject;
  logcat : list LogRecord
}.

(** JNI class path for AndroidJamiBridge. *)
Definition JAMI_BRIDGE_CLASS : string :=
  "com/gettogether/app/jami/AndroidJamiBridge".

(** The value of the statics when the library is loaded: the flag starts
    out [false]. *)
Definition loaded (h : list JavaObject) (l : list LogRecord) : World :=
  {| g_daemonRunning := false; heap := h; logcat := l |}.

(** What ends a native call abnormally.  A Java exception left pending by a
    JNI function is counted as a fault of the call, together with the
    outright crashes of the virtual machine on a misused reference. *)
Inductive Fault : Type :=
| NullPointerException
| NoClassDefFoundError
| NoSuchMethodError
| InstantiationException
| NegativeArraySizeException
| ArrayIndexOutOfBoundsException
| ArrayStoreException
| InvalidReference.

Inductive Outcome (A : Type) : Type :=
| Done (a : A) (w : World)
| Crash (f : Fault).

Arguments Done {A} a w.
Arguments Crash {A} f.

Definition JNI (A : Type) : Type := World -> Outcome A.

Definition ret {A} (a : A) : JNI A := fun w => Done a w.

Definition bind {A B} (m : JNI A) (k : A -> JNI B) : JNI B :=
  fun w =>
    match m w with
    | Done a w' => k a w'
    | Crash f => Crash f
    end.

Definition throw {A} (f : Fault) : JNI A := fun _ => Crash f.

Notation "'let*' x ':=' m 'in' k" := (bind m (fun x => k))
  (at level 10, x name, m at level 100, k at level 200, only parsing).
Notation "m >> k" := (bind m (fun _ => k))
  (at level 90, right associativity, only parsing).

(** *** Statics *)

Definition get_g_daemonRunning : JNI bool :=
  fun w => Done (g_daemonRunning w) w.

Definition set_g_daemonRunning (b : bool) : JNI unit :=
  fun w =>
    Done tt {| g_daemonRunning := b; heap := heap w; logcat := logcat w |}.

(** *** Logging: the [LOGI], [LOGW] and [LOGE] macros *)

Definition __android_log_print (prio : LogPriority) (tag fmt : string)
    (args : list string) : JNI unit :=
  fun w =>
    Done tt {| g_daemonRunning := g_daemonRunning w;
               heap := heap w;
               logcat := logcat w ++
                           [mkLogRecord prio tag (format fmt args)] |}.

Definition LOGI := __android_log_print ANDROID_LOG_INFO LOG_TAG.
Definition LOGW := __android_log_print ANDROID_LOG_WARN LOG_TAG.
Definition LOGE := __android_log_print ANDROID_LOG_ERROR LOG_TAG.

(** *** The functions of [JNIEnv] the file calls *)

Definition deref (w : World) (r : jobject) : option JavaObject :=
  match r with
  | NULL => None
  | Ref a => heap w !! a
  end.

(** A new object gets the next free address. *)
Definition alloc (o : JavaObject) : JNI jobject :=
  fun w =>
    Done (Ref (length (heap w)))
         {| g_daemonRunning := g_daemonRunning w;
            heap := heap w ++ [o];
            logcat := logcat w |}.

(** The classes and methods the class loader of the application resolves. *)
Definition known_classes : list string :=
  ["java/lang/String"; "java/util/HashMap"; JAMI_BRIDGE_CLASS].

Definition FindClass (name : string) : JNI jclass :=
  if existsb (String.eqb name) known_classes
  then ret (Class name)
  else throw NoClassDefFoundError.

Definition GetMethodID (clazz : jclass) (name sig : string) : JNI jmethodID :=
  match clazz with
  | Class c =>
      if String.eqb c "java/util/HashMap" && String.eqb name "<init>"
         && String.eqb sig "()V"
      then ret (Method c name sig)
      else throw NoSuchMethodError
  end.

(** [NewObject] with no constructor argument. *)
Definition NewObject (clazz : jclass) (methodID : jmethodID) : JNI jobject :=
  match clazz, methodID with
  | Class c, Method c' name sig =>
      if String.eqb c "java/util/HashMap" && String.eqb c' c
         && String.eqb name "<init>" && String.eqb sig "()V"
      then alloc (JavaHashMap [])
      else throw InstantiationException
  end.

Definition NewStringUTF (bytes : string) : JNI jstring :=
  alloc (JavaString bytes).

Definition NewObjectArray (len : jsize) (clazz : jclass) (init : jobject)
    : JNI jobjectArray :=
  match clazz with
  | Class c =>
      if len <? 0 then throw NegativeArraySizeException
      else alloc (JavaArray c (replicate (Z.to_nat len) init))
  end.

(** A reference can be stored in an array of [c] when it is null or refers
    to an instance of [c]. *)
Definition assignable (w : World) (val : jobject) (c : string) : bool :=
  match val with
  | NULL => true
  | Ref _ =>
      match deref w val with
      | Some o => String.eqb (class_of o) c
      | None => false
      end
  end.

Definition SetObjectArrayElement (array : jobjectArray) (index : jsize)
    (val : jobject) : JNI unit :=
  fun w =>
    match array with
    | NULL => Crash NullPointerException
    | Ref a =>
        match heap w !! a with
        | Some (JavaArray c elems) =>
            if (0 <=? index) && (index <? Z.of_nat (length elems)) then
              if assignable w val c then
                let elems' := <[Z.to_nat index := val]> elems in
                Done tt
                  {| g_daemonRunning := g_daemonRunning w;
                     heap := <[a := JavaArray c elems']> (heap w);
                     logcat := logcat w |}
              else Crash ArrayStoreException
            else Crash ArrayIndexOutOfBoundsException
        | _ => Crash InvalidReference
        end
    end.

(** [GetStringUTFChars(str, nullptr)]: the characters of a Java string; the
    virtual machine aborts on a null or non-string reference. *)
Definition GetStringUTFChars (str : jstring) : JNI string :=
  fun w =>
    match str with
    | NULL => Crash NullPointerException
    | Ref _ =>
        match deref w str with
        | Some (JavaString s) => Done s w
        | _ => Crash InvalidReference
        end
    end.

Definition ReleaseStringUTFChars (str : jstring) (chars : string) : JNI unit :=
  ret tt.

(** ** The native methods

    One definition per [Java_com_gettogether_app_jami_AndroidJamiBridge_*]
    function of the file, in the order of the file.  The [JNIEnv* env]
    parameter is the monad; [thiz] is kept although no method uses it. *)

Module Java_com_gettogether_app_jami_AndroidJamiBridge.

(** *** Daemon Lifecycle *)

Definition nativeInit (thiz : jobject) (dataPath : jstring) : JNI unit :=
  let* path := GetStringUTFChars dataPath in
  LOGI "nativeInit called with path: %s (STUB)" [path] >>
  ReleaseStringUTFChars dataPath path.

Definition nativeStart (thiz : jobject) : JNI unit :=
  LOGI "nativeStart called (STUB)" [] >>
  set_g_daemonRunning true.

Definition nativeStop (thiz : jobject) : JNI unit :=
  LOGI "nativeStop called (STUB)" [] >>
  set_g_daemonRunning false.

Definition nativeIsRunning (thiz : jobject) : JNI jboolean :=
  let* running := get_g_daemonRunning in
  ret (if running then JNI_TRUE else JNI_FALSE).

(** *** Account Management *)

Definition nativeAddAccount (thiz : jobject) (details : jobject)
    : JNI jstring :=
  LOGI "nativeAddAccount called (STUB)" [] >>
  NewStringUTF "stub-account-id".

Definition nativeRemoveAccount (thiz : jobject) (accountId : jstring)
    : JNI unit :=
  LOGI "nativeRemoveAccount called (STUB)" [].

Definition nativeGetAccountList (thiz : jobject) : JNI jobjectArray :=
  LOGI "nativeGetAccountList called (STUB)" [] >>
  let* stringClass := FindClass "java/lang/String" in
  NewObjectArray 0 stringClass NULL.

Definition nativeGetAccountDetails (thiz : jobject) (accountId : jstring)
    : JNI jobject :=
  LOGI "nativeGetAccountDetails called (STUB)" [] >>
  let* hashMapClass := FindClass "java/util/HashMap" in
  let* hashMapInit := GetMethodID hashMapClass "<init>" "()V" in
  NewObject hashMapClass hashMapInit.

Definition nativeGetVolatileAccountDetails (thiz : jobject)
    (accountId : jstring) : JNI jobject :=
  LOGI "nativeGetVolatileAccountDetails called (STUB)" [] >>
  let* hashMapClass := FindClass "java/util/HashMap" in
  let* hashMapInit := GetMethodID hashMapClass "<init>" "()V" in
  NewObject hashMapClass hashMapInit.

Definition nativeSetAccountDetails (thiz : jobject) (accountId : jstring)
    (details : jobject) : JNI unit :=
  LOGI "nativeSetAccountDetails called (STUB)" [].

Definition nativeSetAccountActive (thiz : jobject) (accountId : jstring)
    (active : jboolean) : JNI unit :=
  LOGI "nativeSetAccountActive called (STUB)" [].

Definition nativeUpdateProfile (thiz : jobject)
    (accountId displayName avatar fileType : jstring) (flag : jint)
    : JNI unit :=
  LOGI "nativeUpdateProfile called (STUB)" [].

Definition nativeRegisterName (thiz : jobject)
    (accountId name scheme password : jstring) : JNI jboolean :=
  LOGI "nativeRegisterName called (STUB)" [] >>
  ret JNI_FALSE.

Definition nativeLookupName (thiz : jobject)
    (accountId nameserver name : jstring) : JNI jboolean :=
  LOGI "nativeLookupName called (STUB)" [] >>
  ret JNI_FALSE.

Definition nativeLookupAddress (thiz : jobject)
    (accountId nameserver address : jstring) : JNI jboolean :=
  LOGI "nativeLookupAddress called (STUB)" [] >>
  ret JNI_FALSE.

Definition nativeExportToFile (thiz : jobject)
    (accountId destPath scheme password : jstring) : JNI jboolean :=
  LOGI "nativeExportToFile called (STUB)" [] >>
  ret JNI_FALSE.

(** *** Contacts *)

Definition nativeGetContacts (thiz : jobject) (accountId : jstring)
    : JNI jobjectArray :=
  LOGI "nativeGetContacts called (STUB)" [] >>
  let* mapClass := FindClass "java/util/HashMap" in
  NewObjectArray 0 mapClass NULL.

Definition nativeAddContact (thiz : jobject) (accountId uri : jstring)
    : JNI unit :=
  LOGI "nativeAddContact called (STUB)" [].

Definition nativeRemoveContact (thiz : jobject) (accountId uri : jstring)
    (ban : jboolean) : JNI unit :=
  LOGI "nativeRemoveContact called (STUB)" [].

Definition nativeGetContactDetails (thiz : jobject) (accountId uri : jstring)
    : JNI jobject :=
  LOGI "nativeGetContactDetails called (STUB)" [] >>
  let* hashMapClass := FindClass "java/util/HashMap" in
  let* hashMapInit := GetMethodID hashMapClass "<init>" "()V" in
  NewObject hashMapClass hashMapInit.

Definition nativeAcceptTrustRequest (thiz : jobject)
    (accountId from : jstring) : JNI unit :=
  LOGI "nativeAcceptTrustRequest called (STUB)" [].

Definition nativeDiscardTrustRequest (thiz : jobject)
    (accountId from : jstring) : JNI unit :=
  LOGI "nativeDiscardTrustRequest called (STUB)" [].

Definition nativeGetTrustRequests (thiz : jobject) (accountId : jstring)
    : JNI jobjectArray :=
  LOGI "nativeGetTrustRequests called (STUB)" [] >>
  let* mapClass := FindClass "java/util/HashMap" in
  NewObjectArray 0 mapClass NULL.

(** *** Conversations *)

Definition nativeGetConversations (thiz : jobject) (accountId : jstring)
    : JNI jobjectArray :=
  LOGI "nativeGetConversations called (STUB)" [] >>
  let* stringClass := FindClass "java/lang/String" in
  NewObjectArray 0 stringClass NULL.

Definition nativeStartConversation (thiz : jobject) (accountId : jstring)
    : JNI jstring :=
  LOGI "nativeStartConversation called (STUB)" [] >>
  NewStringUTF "stub-conversation-id".

Definition nativeRemoveConversation (thiz : jobject)
    (accountId conversationId : jstring) : JNI jboolean :=
  LOGI "nativeRemoveConversation called (STUB)" [] >>
  ret JNI_TRUE.

Definition nativeConversationInfos (thiz : jobject)
    (accountId conversationId : jstring) : JNI jobject :=
  LOGI "nativeConversationInfos called (STUB)" [] >>
  let* hashMapClass := FindClass "java/util/HashMap" in
  let* hashMapInit := GetMethodID hashMapClass "<init>" "()V" in
  NewObject hashMapClass hashMapInit.

Definition nativeUpdateConversationInfos (thiz : jobject)
    (accountId conversationId : jstring) (infos : jobject) : JNI unit :=
  LOGI "nativeUpdateConversationInfos called (STUB)" [].

Definition nativeGetConversationMembers (thiz : jobject)
    (accountId conversationId : jstring) : JNI jobjectArray :=
  LOGI "nativeGetConversationMembers called (STUB)" [] >>
  let* mapClass := FindClass "java/util/HashMap" in
  NewObjectArray 0 mapClass NULL.

Definition nativeAddConversationMember (thiz : jobject)
    (accountId conversationId contactUri : jstring) : JNI unit :=
  LOGI "nativeAddConversationMember called (STUB)" [].

Definition nativeRemoveConversationMember (thiz : jobject)
    (accountId conversationId contactUri : jstring) : JNI unit :=
  LOGI "nativeRemoveConversationMember called (STUB)" [].

Definition nativeAcceptConversationRequest (thiz : jobject)
    (accountId conversationId : jstring) : JNI unit :=
  LOGI "nativeAcceptConversationRequest called (STUB)" [].

Definition nativeDeclineConversationRequest (thiz : jobject)
    (accountId conversationId : jstring) : JNI unit :=
  LOGI "nativeDeclineConversationRequest called (STUB)" [].

Definition nativeGetConversationRequests (thiz : jobject)
    (accountId : jstring) : JNI jobjectArray :=
  LOGI "nativeGetConversationRequests called (STUB)" [] >>
  let* mapClass := FindClass "java/util/HashMap" in
  NewObjectArray 0 mapClass NULL.

(** *** Messaging *)

Definition nativeSendMessage (thiz : jobject)
    (accountId conversationId message replyTo : jstring) (flag : jint)
    : JNI unit :=
  LOGI "nativeSendMessage called (STUB)" [].

Definition nativeLoadConversation (thiz : jobject)
    (accountId conversationId fromMessage : jstring) (n : jint) : JNI jint :=
  LOGI "nativeLoadConversation called (STUB)" [] >>
  ret 0.

Definition nativeSetIsComposing (thiz : jobject)
    (accountId conversationUri : jstring) (isWriting : jboolean) : JNI unit :=
  LOGI "nativeSetIsComposing called (STUB)" [].

Definition nativeSetMessageDisplayed (thiz : jobject)
    (accountId conversationUri messageId : jstring) (status : jint)
    : JNI jboolean :=
  LOGI "nativeSetMessageDisplayed called (STUB)" [] >>
  ret JNI_TRUE.

(** *** Calls *)

Definition nativePlaceCallWithMedia (thiz : jobject) (accountId to : jstring)
    (mediaList : jobjectArray) : JNI jstring :=
  LOGI "nativePlaceCallWithMedia called (STUB)" [] >>
  NewStringUTF "stub-call-id".

Definition nativeAccept (thiz : jobject) (accountId callId : jstring)
    : JNI unit :=
  LOGI "nativeAccept called (STUB)" [].

Definition nativeAcceptWithMedia (thiz : jobject) (accountId callId : jstring)
    (mediaList : jobjectArray) : JNI unit :=
  LOGI "nativeAcceptWithMedia called (STUB)" [].

Definition nativeRefuse (thiz : jobject) (accountId callId : jstring)
    : JNI unit :=
  LOGI "nativeRefuse called (STUB)" [].

Definition nativeHangUp (thiz : jobject) (accountId callId : jstring)
    : JNI unit :=
  LOGI "nativeHangUp called (STUB)" [].

Definition nativeHold (thiz : jobject) (accountId callId : jstring)
    : JNI unit :=
  LOGI "nativeHold called (STUB)" [].

Definition nativeUnhold (thiz : jobject) (accountId callId : jstring)
    : JNI unit :=
  LOGI "nativeUnhold called (STUB)" [].

Definition nativeMuteLocalMedia (thiz : jobject)
    (accountId callId mediaType : jstring) (mute : jboolean) : JNI unit :=
  LOGI "nativeMuteLocalMedia called (STUB)" [].

Definition nativeGetCallDetails (thiz : jobject) (accountId callId : jstring)
    : JNI jobject :=
  LOGI "nativeGetCallDetails called (STUB)" [] >>
  let* hashMapClass := FindClass "java/util/HashMap" in
  let* hashMapInit := GetMethodID hashMapClass "<init>" "()V" in
  NewObject hashMapClass hashMapInit.

Definition nativeGetCallList (thiz : jobject) (accountId : jstring)
    : JNI jobjectArray :=
  LOGI "nativeGetCallList called (STUB)" [] >>
  let* stringClass := FindClass "java/lang/String" in
  NewObjectArray 0 stringClass NULL.

(** *** Conference *)

Definition nativeCreateConfFromParticipantList (thiz : jobject)
    (accountId : jstring) (participants : jobjectArray) : JNI unit :=
  LOGI "nativeCreateConfFromParticipantList called (STUB)" [].

Definition nativeJoinParticipant (thiz : jobject)
    (accountId callId1 accountId2 callId2 : jstring) : JNI unit :=
  LOGI "nativeJoinParticipant called (STUB)" [].

Definition nativeAddParticipant (thiz : jobject)
    (accountId callId account2Id confId : jstring) : JNI unit :=
  LOGI "nativeAddParticipant called (STUB)" [].

Definition nativeHangUpConference (thiz : jobject)
    (accountId confId : jstring) : JNI unit :=
  LOGI "nativeHangUpConference called (STUB)" [].

Definition nativeGetConferenceDetails (thiz : jobject)
    (accountId confId : jstring) : JNI jobject :=
  LOGI "nativeGetConferenceDetails called (STUB)" [] >>
  let* hashMapClass := FindClass "java/util/HashMap" in
  let* hashMapInit := GetMethodID hashMapClass "<init>" "()V" in
  NewObject hashMapClass hashMapInit.

Definition nativeGetParticipantList (thiz : jobject)
    (accountId confId : jstring) : JNI jobjectArray :=
  LOGI "nativeGetParticipantList called (STUB)" [] >>
  let* stringClass := FindClass "java/lang/String" in
  NewObjectArray 0 stringClass NULL.

Definition nativeGetConferenceInfos (thiz : jobject)
    (accountId confId : jstring) : JNI jobjectArray :=
  LOGI "nativeGetConferenceInfos called (STUB)" [] >>
  let* mapClass := FindClass "java/util/HashMap" in
  NewObjectArray 0 mapClass NULL.

Definition nativeSetConferenceLayout (thiz : jobject)
    (accountId confId : jstring) (layout : jint) : JNI unit :=
  LOGI "nativeSetConferenceLayout called (STUB)" [].

Definition nativeMuteParticipant (thiz : jobject)
    (accountId confId peerId : jstring) (state : jboolean) : JNI unit :=
  LOGI "nativeMuteParticipant called (STUB)" [].

Definition nativeHangupParticipant (thiz : jobject)
    (accountId confId accountUri deviceId : jstring) : JNI unit :=
  LOGI "nativeHangupParticipant called (STUB)" [].

(** *** Video *)

Definition nativeGetVideoDeviceList (thiz : jobject) : JNI jobjectArray :=
  LOGI "nativeGetVideoDeviceList called (STUB)" [] >>
  let* stringClass := FindClass "java/lang/String" in
  let* result := NewObjectArray 2 stringClass NULL in
  let* elem0 := NewStringUTF "camera://0" in
  SetObjectArrayElement result 0 elem0 >>
  let* elem1 := NewStringUTF "camera://1" in
  SetObjectArrayElement result 1 elem1 >>
  ret result.

Definition nativeGetCurrentVideoDevice (thiz : jobject) : JNI jstring :=
  LOGI "nativeGetCurrentVideoDevice called (STUB)" [] >>
  NewStringUTF "camera://0".

Definition nativeSetVideoDevice (thiz : jobject) (deviceId : jstring)
    : JNI unit :=
  LOGI "nativeSetVideoDevice called (STUB)" [].

Definition nativeStartVideo (thiz : jobject) : JNI unit :=
  LOGI "nativeStartVideo called (STUB)" [].

Definition nativeStopVideo (thiz : jobject) : JNI unit :=
  LOGI "nativeStopVideo called (STUB)" [].

Definition nativeSwitchInput (thiz : jobject)
    (accountId callId resource : jstring) : JNI unit :=
  LOGI "nativeSwitchInput called (STUB)" [].

(** *** Audio *)

Definition nativeGetAudioOutputDeviceList (thiz : jobject)
    : JNI jobjectArray :=
  LOGI "nativeGetAudioOutputDeviceList called (STUB)" [] >>
  let* stringClass := FindClass "java/lang/String" in
  let* result := NewObjectArray 2 stringClass NULL in
  let* elem0 := NewStringUTF "Speaker" in
  SetObjectArrayElement result 0 elem0 >>
  let* elem1 := NewStringUTF "Earpiece" in
  SetObjectArrayElement result 1 elem1 >>
  ret result.

Definition nativeGetAudioInputDeviceList (thiz : jobject)
    : JNI jobjectArray :=
  LOGI "nativeGetAudioInputDeviceList called (STUB)" [] >>
  let* stringClass := FindClass "java/lang/String" in
  let* result := NewObjectArray 1 stringClass NULL in
  let* elem0 := NewStringUTF "Microphone" in
  SetObjectArrayElement result 0 elem0 >>
  ret result.

Definition nativeSetAudioOutputDevice (thiz : jobject) (index : jint)
    : JNI unit :=
  LOGI "nativeSetAudioOutputDevice called (STUB)" [].

Definition nativeSetAudioInputDevice (thiz : jobject) (index : jint)
    : JNI unit :=
  LOGI "nativeSetAudioInputDevice called (STUB)" [].

End Java_com_gettogether_app_jami_AndroidJamiBridge.

(** ** The catalog of entry points

    An entry point of the bridge, the types of its parameters after [env]
    and [thiz], and its invocation on an argument tuple of those types. *)

Inductive EntryPoint : Type :=
(* Daemon Lifecycle *)
| epInit
| epStart
| epStop
| epIsRunning
(* Account Management *)
| epAddAccount
| epRemoveAccount
| epGetAccountList
| epGetAccountDetails
| epGetVolatileAccountDetails
| epSetAccountDetails
| epSetAccountActive
| epUpdateProfile
| epRegisterName
| epLookupName
| epLookupAddress
| epExportToFile
(* Contacts *)
| epGetContacts
| epAddContact
| epRemoveContact
| epGetContactDetails
| epAcceptTrustRequest
| epDiscardTrustRequest
| epGetTrustRequests
(* Conversations *)
| epGetConversations
| epStartConversation
| epRemoveConversation
| epConversationInfos
| epUpdateConversationInfos
| epGetConversationMembers
| epAddConversationMember
| epRemoveConversationMember
| epAcceptConversationRequest
| epDeclineConversationRequest
| epGetConversationRequests
(* Messaging *)
| epSendMessage
| epLoadConversation
| epSetIsComposing
| epSetMessageDisplayed
(* Calls *)
| epPlaceCallWithMedia
| epAccept
| epAcceptWithMedia
| epRefuse
| epHangUp
| epHold
| epUnhold
| epMuteLocalMedia
| epGetCallDetails
| epGetCallList
(* Conference *)
| epCreateConfFromParticipantList
| epJoinParticipant
| epAddParticipant
| epHangUpConference
| epGetConferenceDetails
| epGetParticipantList
| epGetConferenceInfos
| epSetConferenceLayout
| epMuteParticipant
| epHangupParticipant
(* Video *)
| epGetVideoDeviceList
| epGetCurrentVideoDevice
| epSetVideoDevice
| epStartVideo
| epStopVideo
| epSwitchInput
(* Audio *)
| epGetAudioOutputDeviceList
| epGetAudioInputDeviceList
| epSetAudioOutputDevice
| epSetAudioInputDevice.

Inductive JType : Type :=
| Tjstring
| Tjboolean
| Tjint
| Tjobject
| TjobjectArray.

Definition jtype (t : JType) : Type :=
  match t with
  | Tjstring => jstring
  | Tjboolean => jboolean
  | Tjint => jint
  | Tjobject => jobject
  | TjobjectArray => jobjectArray
  end.

Fixpoint Args (ts : list JType) : Type :=
  match ts with
  | [] => unit
  | t :: ts' => jtype t * Args ts'
  end.

Definition signature (ep : EntryPoint) : list JType :=
  match ep with
  | epInit => [Tjstring]
  | epStart => []
  | epStop => []
  | epIsRunning => []
  | epAddAccount => [Tjobject]
  | epRemoveAccount => [Tjstring]
  | epGetAccountList => []
  | epGetAccountDetails => [Tjstring]
  | epGetVolatileAccountDetails => [Tjstring]
  | epSetAccountDetails => [Tjstring; Tjobject]
  | epSetAccountActive => [Tjstring; Tjboolean]
  | epUpdateProfile => [Tjstring; Tjstring; Tjstring; Tjstring; Tjint]
  | epRegisterName => [Tjstring; Tjstring; Tjstring; Tjstring]
  | epLookupName => [Tjstring; Tjstring; Tjstring]
  | epLookupAddress => [Tjstring; Tjstring; Tjstring]
  | epExportToFile => [Tjstring; Tjstring; Tjstring; Tjstring]
  | epGetContacts => [Tjstring]
  | epAddContact => [Tjstring; Tjstring]
  | epRemoveContact => [Tjstring; Tjstring; Tjboolean]
  | epGetContactDetails => [Tjstring; Tjstring]
  | epAcceptTrustRequest => [Tjstring; Tjstring]
  | epDiscardTrustRequest => [Tjstring; Tjstring]
  | epGetTrustRequests => [Tjstring]
  | epGetConversations => [Tjstring]
  | epStartConversation => [Tjstring]
  | epRemoveConversation => [Tjstring; Tjstring]
  | epConversationInfos => [Tjstring; Tjstring]
  | epUpdateConversationInfos => [Tjstring; Tjstring; Tjobject]
  | epGetConversationMembers => [Tjstring; Tjstring]
  | epAddConversationMember => [Tjstring; Tjstring; Tjstring]
  | epRemoveConversationMember => [Tjstring; Tjstring; Tjstring]
  | epAcceptConversationRequest => [Tjstring; Tjstring]
  | epDeclineConversationRequest => [Tjstring; Tjstring]
  | epGetConversationRequests => [Tjstring]
  | epSendMessage => [Tjstring; Tjstring; Tjstring; Tjstring; Tjint]
  | epLoadConversation => [Tjstring; Tjstring; Tjstring; Tjint]
  | epSetIsComposing => [Tjstring; Tjstring; Tjboolean]
  | epSetMessageDisplayed => [Tjstring; Tjstring; Tjstring; Tjint]
  | epPlaceCallWithMedia => [Tjstring; Tjstring; TjobjectArray]
  | epAccept => [Tjstring; Tjstring]
  | epAcceptWithMedia => [Tjstring; Tjstring; TjobjectArray]
  | epRefuse => [Tjstring; Tjstring]
  | epHangUp => [Tjstring; Tjstring]
  | epHold => [Tjstring; Tjstring]
  | epUnhold => [Tjstring; Tjstring]
  | epMuteLocalMedia => [Tjstring; Tjstring; Tjstring; Tjboolean]
  | epGetCallDetails => [Tjstring; Tjstring]
  | epGetCallList => [Tjstring]
  | epCreateConfFromParticipantList => [Tjstring; TjobjectArray]
  | epJoinParticipant => [Tjstring; Tjstring; Tjstring; Tjstring]
  | epAddParticipant => [Tjstring; Tjstring; Tjstring; Tjstring]
  | epHangUpConference => [Tjstring; Tjstring]
  | epGetConferenceDetails => [Tjstring; Tjstring]
  | epGetParticipantList => [Tjstring; Tjstring]
  | epGetConferenceInfos => [Tjstring; Tjstring]
  | epSetConferenceLayout => [Tjstring; Tjstring; Tjint]
  | epMuteParticipant => [Tjstring; Tjstring; Tjstring; Tjboolean]
  | epHangupParticipant => [Tjstring; Tjstring; Tjstring; Tjstring]
  | epGetVideoDeviceList => []
  | epGetCurrentVideoDevice => []
  | epSetVideoDevice => [Tjstring]
  | epStartVideo => []
  | epStopVideo => []
  | epSwitchInput => [Tjstring; Tjstring; Tjstring]
  | epGetAudioOutputDeviceList => []
  | epGetAudioInputDeviceList => []
  | epSetAudioOutputDevice => [Tjint]
  | epSetAudioInputDevice => [Tjint]
  end.

(** The result of a method, as the [jvalue] of its return type. *)
Definition as_void (m : JNI unit) : JNI jvalue :=
  m >> ret JVoid.
Definition as_jboolean (m : JNI jboolean) : JNI jvalue :=
  let* z := m in ret (JBoolean z).
Definition as_jint (m : JNI jint) : JNI jvalue :=
  let* i := m in ret (JInt i).
Definition as_jobject (m : JNI jobject) : JNI jvalue :=
  let* l := m in ret (JObject l).

Import Java_com_gettogether_app_jami_AndroidJamiBridge.

Definition invoke (ep : EntryPoint) (thiz : jobject)
    : Args (signature ep) -> JNI jvalue :=
  match ep as e return Args (signature e) -> JNI jvalue with
  | epInit => fun '(dataPath, tt) => as_void (nativeInit thiz dataPath)
  | epStart => fun _ => as_void (nativeStart thiz)
  | epStop => fun _ => as_void (nativeStop thiz)
  | epIsRunning => fun _ => as_jboolean (nativeIsRunning thiz)
  | epAddAccount => fun '(details, tt) =>
      as_jobject (nativeAddAccount thiz details)
  | epRemoveAccount => fun '(accountId, tt) =>
      as_void (nativeRemoveAccount thiz accountId)
  | epGetAccountList => fun _ => as_jobject (nativeGetAccountList thiz)
  | epGetAccountDetails => fun '(accountId, tt) =>
      as_jobject (nativeGetAccountDetails thiz accountId)
  | epGetVolatileAccountDetails => fun '(accountId, tt) =>
      as_jobject (nativeGetVolatileAccountDetails thiz accountId)
  | epSetAccountDetails => fun '(accountId, (details, tt)) =>
      as_void (nativeSetAccountDetails thiz accountId details)
  | epSetAccountActive => fun '(accountId, (active, tt)) =>
      as_void (nativeSetAccountActive thiz accountId active)
  | epUpdateProfile =>
      fun '(accountId, (displayName, (avatar, (fileType, (flag, tt))))) =>
        as_void (nativeUpdateProfile thiz accountId displayName avatar
                  fileType flag)
  | epRegisterName => fun '(accountId, (name, (scheme, (password, tt)))) =>
      as_jboolean (nativeRegisterName thiz accountId name scheme password)
  | epLookupName => fun '(accountId, (nameserver, (name, tt))) =>
      as_jboolean (nativeLookupName thiz accountId nameserver name)
  | epLookupAddress => fun '(accountId, (nameserver, (address, tt))) =>
      as_jboolean (nativeLookupAddress thiz accountId nameserver address)
  | epExportToFile =>
      fun '(accountId, (destPath, (scheme, (password, tt)))) =>
        as_jboolean (nativeExportToFile thiz accountId destPath scheme
                      password)
  | epGetContacts => fun '(accountId, tt) =>
      as_jobject (nativeGetContacts thiz accountId)
  | epAddContact => fun '(accountId, (uri, tt)) =>
      as_void (nativeAddContact thiz accountId uri)
  | epRemoveContact => fun '(accountId, (uri, (ban, tt))) =>
      as_void (nativeRemoveContact thiz accountId uri ban)
  | epGetContactDetails => fun '(accountId, (uri, tt)) =>
      as_jobject (nativeGetContactDetails thiz accountId uri)
  | epAcceptTrustRequest => fun '(accountId, (from, tt)) =>
      as_void (nativeAcceptTrustRequest thiz accountId from)
  | epDiscardTrustRequest => fun '(accountId, (from, tt)) =>
      as_void (nativeDiscardTrustRequest thiz accountId from)
  | epGetTrustRequests => fun '(accountId, tt) =>
      as_jobject (nativeGetTrustRequests thiz accountId)
  | epGetConversations => fun '(accountId, tt) =>
      as_jobject (nativeGetConversations thiz accountId)
  | epStartConversation => fun '(accountId, tt) =>
      as_jobject (nativeStartConversation thiz accountId)
  | epRemoveConversation => fun '(accountId, (conversationId, tt)) =>
      as_jboolean (nativeRemoveConversation thiz accountId conversationId)
  | epConversationInfos => fun '(accountId, (conversationId, tt)) =>
      as_jobject (nativeConversationInfos thiz accountId conversationId)
  | epUpdateConversationInfos =>
      fun '(accountId, (conversationId, (infos, tt))) =>
        as_void (nativeUpdateConversationInfos thiz accountId conversationId
                  infos)
  | epGetConversationMembers => fun '(accountId, (conversationId, tt)) =>
      as_jobject (nativeGetConversationMembers thiz accountId conversationId)
  | epAddConversationMember =>
      fun '(accountId, (conversationId, (contactUri, tt))) =>
        as_void (nativeAddConversationMember thiz accountId conversationId
                  contactUri)
  | epRemoveConversationMember =>
      fun '(accountId, (conversationId, (contactUri, tt))) =>
        as_void (nativeRemoveConversationMember thiz accountId conversationId
                  contactUri)
  | epAcceptConversationRequest => fun '(accountId, (conversationId, tt)) =>
      as_void (nativeAcceptConversationRequest thiz accountId conversationId)
  | epDeclineConversationRequest => fun '(accountId, (conversationId, tt)) =>
      as_void (nativeDeclineConversationRequest thiz accountId conversationId)
  | epGetConversationRequests => fun '(accountId, tt) =>
      as_jobject (nativeGetConversationRequests thiz accountId)
  | epSendMessage =>
      fun '(accountId, (conversationId, (message, (replyTo, (flag, tt))))) =>
        as_void (nativeSendMessage thiz accountId conversationId message
                  replyTo flag)
  | epLoadConversation =>
      fun '(accountId, (conversationId, (fromMessage, (n, tt)))) =>
        as_jint (nativeLoadConversation thiz accountId conversationId
                  fromMessage n)
  | epSetIsComposing =>
      fun '(accountId, (conversationUri, (isWriting, tt))) =>
        as_void (nativeSetIsComposing thiz accountId conversationUri
                  isWriting)
  | epSetMessageDisplayed =>
      fun '(accountId, (conversationUri, (messageId, (status, tt)))) =>
        as_jboolean (nativeSetMessageDisplayed thiz accountId conversationUri
                      messageId status)
  | epPlaceCallWithMedia => fun '(accountId, (to, (mediaList, tt))) =>
      as_jobject (nativePlaceCallWithMedia thiz accountId to mediaList)
  | epAccept => fun '(accountId, (callId, tt)) =>
      as_void (nativeAccept thiz accountId callId)
  | epAcceptWithMedia => fun '(accountId, (callId, (mediaList, tt))) =>
      as_void (nativeAcceptWithMedia thiz accountId callId mediaList)
  | epRefuse => fun '(accountId, (callId, tt)) =>
      as_void (nativeRefuse thiz accountId callId)
  | epHangUp => fun '(accountId, (callId, tt)) =>
      as_void (nativeHangUp thiz accountId callId)
  | epHold => fun '(accountId, (callId, tt)) =>
      as_void (nativeHold thiz accountId callId)
  | epUnhold => fun '(accountId, (callId, tt)) =>
      as_void (nativeUnhold thiz accountId callId)
  | epMuteLocalMedia => fun '(accountId, (callId, (mediaType, (mute, tt)))) =>
      as_void (nativeMuteLocalMedia thiz accountId callId mediaType mute)
  | epGetCallDetails => fun '(accountId, (callId, tt)) =>
      as_jobject (nativeGetCallDetails thiz accountId callId)
  | epGetCallList => fun '(accountId, tt) =>
      as_jobject (nativeGetCallList thiz accountId)
  | epCreateConfFromParticipantList => fun '(accountId, (participants, tt)) =>
      as_void (nativeCreateConfFromParticipantList thiz accountId
                participants)
  | epJoinParticipant =>
      fun '(accountId, (callId1, (accountId2, (callId2, tt)))) =>
        as_void (nativeJoinParticipant thiz accountId callId1 accountId2
                  callId2)
  | epAddParticipant =>
      fun '(accountId, (callId, (account2Id, (confId, tt)))) =>
        as_void (nativeAddParticipant thiz accountId callId account2Id confId)
  | epHangUpConference => fun '(accountId, (confId, tt)) =>
      as_void (nativeHangUpConference thiz accountId confId)
  | epGetConferenceDetails => fun '(accountId, (confId, tt)) =>
      as_jobject (nativeGetConferenceDetails thiz accountId confId)
  | epGetParticipantList => fun '(accountId, (confId, tt)) =>
      as_jobject (nativeGetParticipantList thiz accountId confId)
  | epGetConferenceInfos => fun '(accountId, (confId, tt)) =>
      as_jobject (nativeGetConferenceInfos thiz accountId confId)
  | epSetConferenceLayout => fun '(accountId, (confId, (layout, tt))) =>
      as_void (nativeSetConferenceLayout thiz accountId confId layout)
  | epMuteParticipant => fun '(accountId, (confId, (peerId, (state, tt)))) =>
      as_void (nativeMuteParticipant thiz accountId confId peerId state)
  | epHangupParticipant =>
      fun '(accountId, (confId, (accountUri, (deviceId, tt)))) =>
        as_void (nativeHangupParticipant thiz accountId confId accountUri
                  deviceId)
  | epGetVideoDeviceList => fun _ => as_jobject (nativeGetVideoDeviceList thiz)
  | epGetCurrentVideoDevice => fun _ =>
      as_jobject (nativeGetCurrentVideoDevice thiz)
  | epSetVideoDevice => fun '(deviceId, tt) =>
      as_void (nativeSetVideoDevice thiz deviceId)
  | epStartVideo => fun _ => as_void (nativeStartVideo thiz)
  | epStopVideo => fun _ => as_void (nativeStopVideo thiz)
  | epSwitchInput => fun '(accountId, (callId, (resource, tt))) =>
      as_void (nativeSwitchInput thiz accountId callId resource)
  | epGetAudioOutputDeviceList => fun _ =>
      as_jobject (nativeGetAudioOutputDeviceList thiz)
  | epGetAudioInputDeviceList => fun _ =>
      as_jobject (nativeGetAudioInputDeviceList thiz)
  | epSetAudioOutputDevice => fun '(index, tt) =>
      as_void (nativeSetAudioOutputDevice thiz index)
  | epSetAudioInputDevice => fun '(index, tt) =>
      as_void (nativeSetAudioInputDevice thiz index)
  end.

(** ** Call families

    The source groups its methods by domain only (the section comments kept
    in [EntryPoint]).  The families below sort the catalog by what a method
    is for: the four lifecycle methods; the methods that make a new
    account, conversation, call or conference; the methods that read data
    back, [nativeLoadConversation] with its count among them; and the
    remaining methods, which ask the engine to change or to do something,
    the name-service and export requests among them. *)

Inductive Family : Type :=
| Lifecycle
| Create
| Query
| Mutating.

Definition family (ep : EntryPoint) : Family :=
  match ep with
  | epInit | epStart | epStop | epIsRunning => Lifecycle
  | epAddAccount | epStartConversation | epPlaceCallWithMedia |
    epCreateConfFromParticipantList => Create
  | epGetAccountList | epGetAccountDetails | epGetVolatileAccountDetails |
    epGetContacts | epGetContactDetails | epGetTrustRequests |
    epGetConversations | epConversationInfos | epGetConversationMembers |
    epGetConversationRequests | epLoadConversation | epGetCallDetails |
    epGetCallList | epGetConferenceDetails | epGetParticipantList |
    epGetConferenceInfos | epGetVideoDeviceList | epGetCurrentVideoDevice |
    epGetAudioOutputDeviceList | epGetAudioInputDeviceList => Query
  | epRemoveAccount | epSetAccountDetails | epSetAccountActive |
    epUpdateProfile | epRegisterName | epLookupName | epLookupAddress |
    epExportToFile | epAddContact | epRemoveContact | epAcceptTrustRequest |
    epDiscardTrustRequest | epRemoveConversation |
    epUpdateConversationInfos | epAddConversationMember |
    epRemoveConversationMember | epAcceptConversationRequest |
    epDeclineConversationRequest | epSendMessage | epSetIsComposing |
    epSetMessageDisplayed | epAccept | epAcceptWithMedia | epRefuse |
    epHangUp | epHold | epUnhold | epMuteLocalMedia | epJoinParticipant |
    epAddParticipant | epHangUpConference | epSetConferenceLayout |
    epMuteParticipant | epHangupParticipant | epSetVideoDevice |
    epStartVideo | epStopVideo | epSwitchInput | epSetAudioOutputDevice |
    epSetAudioInputDevice => Mutating
  end.

(** ** Arguments the managed caller can pass

    A [jstring] argument refers to a string of the heap, a [jboolean] and a
    [jint] are in the range of their type; object and array arguments are
    arbitrary references. *)

Definition is_string (w : World) (r : jobject) : bool :=
  match deref w r with
  | Some (JavaString _) => true
  | _ => false
  end.

Definition has_type (w : World) (t : JType) : jtype t -> bool :=
  match t as t0 return jtype t0 -> bool with
  | Tjstring => fun r => is_string w r
  | Tjboolean => fun z => (0 <=? z) && (z <? 256)
  | Tjint => fun i => (- 2 ^ 31 <=? i) && (i <? 2 ^ 31)
  | Tjobject => fun _ => true
  | TjobjectArray => fun _ => true
  end.

Fixpoint well_typed (w : World) (ts : list JType) : Args ts -> bool :=
  match ts as ts0 return Args ts0 -> bool with
  | [] => fun _ => true
  | t :: ts' => fun a => has_type w t (fst a) && well_typed w ts' (snd a)
  end.

(** ** What the managed caller gets back

    The returned [jvalue] read in the heap the call leaves behind: a
    [jboolean] as a Boolean, a reference as the string, array or map it
    refers to.  An array is read with its elements, each null or a string. *)

Inductive Managed : Type :=
| MUnit
| MBoolean (b : bool)
| MInt (i : Z)
| MNull
| MString (s : string)
| MArray (elemClass : string) (elems : list (option string))
| MHashMap (entries : list (jobject * jobject)).

Definition read_elem (w : World) (r : jobject) : option (option string) :=
  match r with
  | NULL => Some None
  | Ref _ =>
      match deref w r with
      | Some (JavaString s) => Some (Some s)
      | _ => None
      end
  end.

Definition view (w : World) (v : jvalue) : option Managed :=
  match v with
  | JVoid => Some MUnit
  | JBoolean z => Some (MBoolean (negb (z =? 0)))
  | JInt i => Some (MInt i)
  | JObject NULL => Some MNull
  | JObject (Ref a) =>
      match heap w !! a with
      | Some (JavaString s) => Some (MString s)
      | Some (JavaArray c elems) => MArray c <$> mapM (read_elem w) elems
      | Some (JavaHashMap es) => Some (MHashMap es)
      | None => None
      end
  end.

(** [returns o v f]: the call completed, handing back [v] and leaving the
    running flag at [f]. *)
Definition returns (o : Outcome jvalue) (v : Managed) (f : bool) : Prop :=
  exists r w', o = Done r w' /\ view w' r = Some v /\ g_daemonRunning w' = f.

Definition completes {A} (o : Outcome A) : Prop :=
  exists a w', o = Done a w'.

(** ** Sequences of calls *)

Record Invocation : Type := mkInvocation {
  inv_entry : EntryPoint;
  inv_thiz : jobject;
  inv_args : Args (signature inv_entry)
}.

Definition call (c : Invocation) : JNI jvalue :=
  invoke (inv_entry c) (inv_thiz c) (inv_args c).

Definition well_typed_call (w : World) (c : Invocation) : bool :=
  well_typed w (signature (inv_entry c)) (inv_args c).

Fixpoint run (cs : list Invocation) : JNI unit :=
  match cs with
  | [] => ret tt
  | c :: cs' => call c >> run cs'
  end.

(** Every call of the session gets well-typed arguments in the world it is
    made in, so that a later call may pass on a string an earlier one
    returned.  Nothing is asked of a call that is never reached. *)
Fixpoint well_typed_session (w : World) (cs : list Invocation) : bool :=
  match cs with
  | [] => true
  | c :: cs' =>
      well_typed_call w c &&
      match call c w with
      | Done _ w' => well_typed_session w' cs'
      | Crash _ => true
      end
  end.

(** The most recent of [nativeStart] and [nativeStop] in a sequence of
    calls, if there is one. *)
Fixpoint most_recent_lifecycle (cs : list Invocation) : option EntryPoint :=
  match cs with
  | [] => None
  | c :: cs' =>
      match most_recent_lifecycle cs' with
      | Some e => Some e
      | None =>
          match inv_entry c with
          | epStart => Some epStart
          | epStop => Some epStop
          | _ => None
          end
      end
  end.

Definition started_last (cs : list Invocation) : bool :=
  match most_recent_lifecycle cs with
  | Some epStart => true
  | _ => false
  end.

(** The flag an entry point leaves behind, from the flag it finds: only
    [nativeStart] and [nativeStop] assign [g_daemonRunning]. *)
Definition flag_after (ep : EntryPoint) (running : bool) : bool :=
  match ep with
  | epStart => true
  | epStop => false
  | _ => running
  end.

(** An empty array or an empty map. *)
Definition empty_collection (v : Managed) : bool :=
  match v with
  | MArray _ [] => true
  | MHashMap [] => true
  | _ => false
  end.

(** ** Sample data

    A small heap, a world on it with the library just loaded, and a
    session that stops before it starts. *)

Definition sample_heap : list JavaObject :=
  [JavaString ""; JavaString "jami:alice"; JavaString "jami:bob"].

Definition sample_world : World := loaded sample_heap [].

Definition sample_session : list Invocation :=
  [mkInvocation epStop NULL tt;
   mkInvocation epInit NULL (Ref 0%nat, tt);
   mkInvocation epAddAccount NULL (NULL, tt);
   mkInvocation epStart NULL tt;
   mkInvocation epStartVideo NULL tt;
   mkInvocation epGetVideoDeviceList NULL tt;
   mkInvocation epStopVideo NULL tt;
   mkInvocation epSetAccountActive NULL (Ref 3%nat, (JNI_TRUE, tt));
   mkInvocation epRemoveAccount NULL (Ref 1%nat, tt)].

(** The same strings in a world that has been running for a while. *)
Definition busy_world : World :=
  {| g_daemonRunning := false;
     heap := sample_heap ++ [JavaHashMap []; JavaString "camera://1"];
     logcat := [mkLogRecord ANDROID_LOG_INFO LOG_TAG
                  "nativeStop called (STUB)"] |}.

(** ** What a method writes to the log

    The name of the method behind an entry point: its JNI function name
    without the [Java_com_gettogether_app_jami_AndroidJamiBridge_] prefix. *)
Definition method_name (ep : EntryPoint) : string :=
  match ep with
  | epInit => "nativeInit"
  | epStart => "nativeStart"
  | epStop => "nativeStop"
  | epIsRunning => "nativeIsRunning"
  | epAddAccount => "nativeAddAccount"
  | epRemoveAccount => "nativeRemoveAccount"
  | epGetAccountList => "nativeGetAccountList"
  | epGetAccountDetails => "nativeGetAccountDetails"
  | epGetVolatileAccountDetails => "nativeGetVolatileAccountDetails"
  | epSetAccountDetails => "nativeSetAccountDetails"
  | epSetAccountActive => "nativeSetAccountActive"
  | epUpdateProfile => "nativeUpdateProfile"
  | epRegisterName => "nativeRegisterName"
  | epLookupName => "nativeLookupName"
  | epLookupAddress => "nativeLookupAddress"
  | epExportToFile => "nativeExportToFile"
  | epGetContacts => "nativeGetContacts"
  | epAddContact => "nativeAddContact"
  | epRemoveContact => "nativeRemoveContact"
  | epGetContactDetails => "nativeGetContactDetails"
  | epAcceptTrustRequest => "nativeAcceptTrustRequest"
  | epDiscardTrustRequest => "nativeDiscardTrustRequest"
  | epGetTrustRequests => "nativeGetTrustRequests"
  | epGetConversations => "nativeGetConversations"
  | epStartConversation => "nativeStartConversation"
  | epRemoveConversation => "nativeRemoveConversation"
  | epConversationInfos => "nativeConversationInfos"
  | epUpdateConversationInfos => "nativeUpdateConversationInfos"
  | epGetConversationMembers => "nativeGetConversationMembers"
  | epAddConversationMember => "nativeAddConversationMember"
  | epRemoveConversationMember => "nativeRemoveConversationMember"
  | epAcceptConversationRequest => "nativeAcceptConversationRequest"
  | epDeclineConversationRequest => "nativeDeclineConversationRequest"
  | epGetConversationRequests => "nativeGetConversationRequests"
  | epSendMessage => "nativeSendMessage"
  | epLoadConversation => "nativeLoadConversation"
  | epSetIsComposing => "nativeSetIsComposing"
  | epSetMessageDisplayed => "nativeSetMessageDisplayed"
  | epPlaceCallWithMedia => "nativePlaceCallWithMedia"
  | epAccept => "nativeAccept"
  | epAcceptWithMedia => "nativeAcceptWithMedia"
  | epRefuse => "nativeRefuse"
  | epHangUp => "nativeHangUp"
  | epHold => "nativeHold"
  | epUnhold => "nativeUnhold"
  | epMuteLocalMedia => "nativeMuteLocalMedia"
  | epGetCallDetails => "nativeGetCallDetails"
  | epGetCallList => "nativeGetCallList"
  | epCreateConfFromParticipantList => "nativeCreateConfFromParticipantList"
  | epJoinParticipant => "nativeJoinParticipant"
  | epAddParticipant => "nativeAddParticipant"
  | epHangUpConference => "nativeHangUpConference"
  | epGetConferenceDetails => "nativeGetConferenceDetails"
  | epGetParticipantList => "nativeGetParticipantList"
  | epGetConferenceInfos => "nativeGetConferenceInfos"
  | epSetConferenceLayout => "nativeSetConferenceLayout"
  | epMuteParticipant => "nativeMuteParticipant"
  | epHangupParticipant => "nativeHangupParticipant"
  | epGetVideoDeviceList => "nativeGetVideoDeviceList"
  | epGetCurrentVideoDevice => "nativeGetCurrentVideoDevice"
  | epSetVideoDevice => "nativeSetVideoDevice"
  | epStartVideo => "nativeStartVideo"
  | epStopVideo => "nativeStopVideo"
  | epSwitchInput => "nativeSwitchInput"
  | epGetAudioOutputDeviceList => "nativeGetAudioOutputDeviceList"
  | epGetAudioInputDeviceList => "nativeGetAudioInputDeviceList"
  | epSetAudioOutputDevice => "nativeSetAudioOutputDevice"
  | epSetAudioInputDevice => "nativeSetAudioInputDevice"
  end.

(** The line of a method that announces itself and no more. *)
Definition stub_line (ep : EntryPoint) : LogRecord :=
  mkLogRecord ANDROID_LOG_INFO LOG_TAG
    (String.append (method_name ep) " called (STUB)").

(** The line of [nativeInit] for a given path. *)
Definition init_line (path : string) : LogRecord :=
  mkLogRecord ANDROID_LOG_INFO LOG_TAG
    (String.append "nativeInit called with path: "
       (String.append path " (STUB)")).

Definition is_status_query (c : Invocation) : bool :=
  match inv_entry c with
  | epIsRunning => true
  | _ => false
  end.

(** A path that looks like a format string. *)
Definition hostile_heap : list JavaObject :=
  [JavaString "/data/%s%n/100%"; JavaHashMap [(Ref 0%nat, Ref 0%nat)]].

(** The lines an entry point writes; [path] matters to [nativeInit] only. *)
Definition lines_of (ep : EntryPoint) (path : string) : list LogRecord :=
  match ep with
  | epIsRunning => []
  | epInit => [init_line path]
  | _ => [stub_line ep]
  end.

(** What a call has allocated, given its result [r], the first free address
    [top] before the call and the new objects [objs]: nothing when [r] is
    not a reference; otherwise the result at [top], followed only by
    elements of the result. *)
Definition handed_over (r : jvalue) (top : nat) (objs : list JavaObject)
    : Prop :=
  match r with
  | JObject x =>
      x = Ref top /\
      exists o rest,
        objs = o :: rest /\
        forall k o', rest !! k = Some o' ->
          exists c elems, o = JavaArray c elems /\ In (Ref (top + S k)) elems
  | _ => objs = []
  end.

(** A world after a method has written its line and done nothing else. *)
Definition with_stub_line (ep : EntryPoint) (w : World) : World :=
  {| g_daemonRunning := g_daemonRunning w;
     heap := heap w;
     logcat := logcat w ++ [stub_line ep] |}.

(** The sample world after one and after two reads of account details,
    and after a read of the audio inputs. *)
Definition account_details_read : World :=
  {| g_daemonRunning := false;
     heap := sample_heap ++ [JavaHashMap []];
     logcat := [stub_line epGetAccountDetails] |}.

Definition account_details_read_twice : World :=
  {| g_daemonRunning := false;
     heap := sample_heap ++ [JavaHashMap []; JavaHashMap []];
     logcat := [stub_line epGetAccountDetails;
                stub_line epGetAccountDetails] |}.

Definition audio_inputs_read : World :=
  {| g_daemonRunning := false;
     heap := sample_heap ++
             [JavaArray "java/lang/String" [Ref 4%nat];
              JavaString "Microphone"];
     logcat := [stub_line epGetAudioInputDeviceList] |}.

(** The sample world with the daemon started. *)
Definition running_world : World :=
  {| g_daemonRunning := true;
     heap := sample_heap;
     logcat := [stub_line epStart] |}.

(** * Verification *)

(** ** The monad and the heap *)

Lemma bind_Done {A B} (m : JNI A) (k : A -> JNI B) w a w' :
  m w = Done a w' -> bind m k w = k a w'.
Proof. unfold bind. intros ->. reflexivity. Qed.

(** Objects allocated after [h] sit at [length h], [length h + 1], ... *)
Lemma lookup_fresh (h l : list JavaObject) (k : nat) :
  (h ++ l)%list !! (length h + k)%nat = l !! k.
Proof. rewrite lookup_app_r by lia. f_equal. lia. Qed.

Lemma lookup_fresh_0 (h l : list JavaObject) :
  (h ++ l)%list !! length h = l !! 0%nat.
Proof. rewrite <- (Nat.add_0_r (length h)) at 1. apply lookup_fresh. Qed.

Lemma insert_fresh_0 (h l : list JavaObject) (o : JavaObject) :
  <[length h := o]> (h ++ l)%list = (h ++ <[0%nat := o]> l)%list.
Proof. rewrite <- (Nat.add_0_r (length h)) at 1. apply insert_app_r. Qed.

(** Allocation never moves or changes an object that is already there. *)
Lemma lookup_old (h l : list JavaObject) (a : nat) (o : JavaObject) :
  h !! a = Some o -> (h ++ l)%list !! a = Some o.
Proof. intros H. apply lookup_app_l_Some. exact H. Qed.

Lemma is_string_grows w w' objs r :
  heap w' = (heap w ++ objs)%list ->
  is_string w r = true -> is_string w' r = true.
Proof.
  intros Hh. unfold is_string, deref. destruct r as [|a]; [discriminate|].
  rewrite Hh. destruct (heap w !! a) as [o|] eqn:E; [|discriminate].
  rewrite (lookup_old _ objs _ _ E). trivial.
Qed.

Lemma has_type_grows w w' objs t (x : jtype t) :
  heap w' = (heap w ++ objs)%list ->
  has_type w t x = true -> has_type w' t x = true.
Proof.
  intros Hh. destruct t; cbn; trivial. apply is_string_grows with objs, Hh.
Qed.

Lemma well_typed_grows w w' objs ts (args : Args ts) :
  heap w' = (heap w ++ objs)%list ->
  well_typed w ts args = true -> well_typed w' ts args = true.
Proof.
  intros Hh. induction ts as [|t ts IH]; cbn; [trivial|].
  rewrite !andb_true_iff. intros [H1 H2]. split.
  - apply has_type_grows with w objs; assumption.
  - apply IH, H2.
Qed.

(** ** The JNI functions *)

Lemma GetStringUTFChars_run w str :
  is_string w str = true ->
  exists s, deref w str = Some (JavaString s) /\
            GetStringUTFChars str w = Done s w.
Proof.
  unfold is_string, GetStringUTFChars.
  destruct str as [|a]; cbn; [discriminate|].
  destruct (heap w !! a) as [[s| |]|]; try discriminate.
  intros _. exists s. split; reflexivity.
Qed.

Lemma SetObjectArrayElement_run w a c elems (i : Z) v :
  heap w !! a = Some (JavaArray c elems) ->
  0 <= i < Z.of_nat (length elems) ->
  assignable w v c = true ->
  SetObjectArrayElement (Ref a) i v w =
    Done tt {| g_daemonRunning := g_daemonRunning w;
               heap := <[a := JavaArray c (<[Z.to_nat i := v]> elems)]>
                         (heap w);
               logcat := logcat w |}.
Proof.
  intros Ha Hi Hv. unfold SetObjectArrayElement. rewrite Ha.
  replace (0 <=? i) with true by (symmetry; apply Z.leb_le; lia).
  replace (i <? Z.of_nat (length elems)) with true
    by (symmetry; apply Z.ltb_lt; lia).
  cbn. rewrite Hv. reflexivity.
Qed.

(** Storing outside the array is a fault: the model does not let stdpp's
    out-of-range insert pass silently. *)
Lemma SetObjectArrayElement_out_of_range w a c elems (i : Z) v :
  heap w !! a = Some (JavaArray c elems) ->
  Z.of_nat (length elems) <= i ->
  SetObjectArrayElement (Ref a) i v w = Crash ArrayIndexOutOfBoundsException.
Proof.
  intros Ha Hi. unfold SetObjectArrayElement. rewrite Ha.
  replace (i <? Z.of_nat (length elems)) with false
    by (symmetry; apply Z.ltb_ge; lia).
  rewrite andb_false_r. reflexivity.
Qed.

Ltac heap_norm :=
  repeat first
    [ rewrite <- app_assoc
    | rewrite length_app
    | rewrite lookup_fresh
    | rewrite lookup_fresh_0
    | rewrite insert_fresh_0
    | match goal with
      | |- context [Z.to_nat ?z] =>
          let n := eval vm_compute in (Z.to_nat z) in
          change (Z.to_nat z) with n
      end
    | progress cbn ].

Ltac store_elem :=
  erewrite (bind_Done (SetObjectArrayElement _ _ _));
  [ | eapply SetObjectArrayElement_run;
      [ heap_norm; reflexivity
      | cbn; lia
      | unfold assignable, deref; heap_norm; reflexivity ] ].

(** ** The device lists, run *)

Section DeviceLists.

Variables (thiz : jobject) (w : World).

Lemma nativeGetVideoDeviceList_run :
  nativeGetVideoDeviceList thiz w =
    Done (Ref (length (heap w)))
      {| g_daemonRunning := g_daemonRunning w;
         heap := heap w ++
           [JavaArray "java/lang/String"
              [Ref (length (heap w) + 1); Ref (length (heap w) + 2)];
            JavaString "camera://0"; JavaString "camera://1"];
         logcat := logcat w ++
           [mkLogRecord ANDROID_LOG_INFO LOG_TAG
              "nativeGetVideoDeviceList called (STUB)"] |}.
Proof.
  unfold nativeGetVideoDeviceList.
  cbn -[SetObjectArrayElement]. heap_norm.
  store_elem. cbn -[SetObjectArrayElement].
  store_elem. heap_norm. reflexivity.
Qed.

Lemma nativeGetAudioOutputDeviceList_run :
  nativeGetAudioOutputDeviceList thiz w =
    Done (Ref (length (heap w)))
      {| g_daemonRunning := g_daemonRunning w;
         heap := heap w ++
           [JavaArray "java/lang/String"
              [Ref (length (heap w) + 1); Ref (length (heap w) + 2)];
            JavaString "Speaker"; JavaString "Earpiece"];
         logcat := logcat w ++
           [mkLogRecord ANDROID_LOG_INFO LOG_TAG
              "nativeGetAudioOutputDeviceList called (STUB)"] |}.
Proof.
  unfold nativeGetAudioOutputDeviceList.
  cbn -[SetObjectArrayElement]. heap_norm.
  store_elem. cbn -[SetObjectArrayElement].
  store_elem. heap_norm. reflexivity.
Qed.

Lemma nativeGetAudioInputDeviceList_run :
  nativeGetAudioInputDeviceList thiz w =
    Done (Ref (length (heap w)))
      {| g_daemonRunning := g_daemonRunning w;
         heap := heap w ++
           [JavaArray "java/lang/String" [Ref (length (heap w) + 1)];
            JavaString "Microphone"];
         logcat := logcat w ++
           [mkLogRecord ANDROID_LOG_INFO LOG_TAG
              "nativeGetAudioInputDeviceList called (STUB)"] |}.
Proof.
  unfold nativeGetAudioInputDeviceList.
  cbn -[SetObjectArrayElement]. heap_norm.
  store_elem. heap_norm. reflexivity.
Qed.

End DeviceLists.

(** ** Running an entry point *)

Ltac destruct_args :=
  repeat match goal with
         | a : (_ * _)%type |- _ => destruct a
         | u : unit |- _ => destruct u
         end.

(** Evaluates [invoke ep thiz args w] for a given [ep] down to its [Done]. *)
Ltac run_invoke :=
  cbn -[nativeInit nativeGetVideoDeviceList nativeGetAudioOutputDeviceList
        nativeGetAudioInputDeviceList];
  unfold as_void, as_jboolean, as_jint, as_jobject, bind;
  rewrite ?nativeGetVideoDeviceList_run, ?nativeGetAudioOutputDeviceList_run,
          ?nativeGetAudioInputDeviceList_run;
  cbn; unfold ret.

Lemma nativeInit_run thiz dataPath w :
  is_string w dataPath = true ->
  exists path,
    deref w dataPath = Some (JavaString path) /\
    nativeInit thiz dataPath w =
      Done tt {| g_daemonRunning := g_daemonRunning w;
                 heap := heap w;
                 logcat := logcat w ++
                   [mkLogRecord ANDROID_LOG_INFO LOG_TAG
                      (format "nativeInit called with path: %s (STUB)"
                              [path])] |}.
Proof.
  intros H. destruct (GetStringUTFChars_run _ _ H) as (path & Hd & Hrun).
  exists path. split; [exact Hd|].
  unfold nativeInit. rewrite (bind_Done _ _ _ _ _ Hrun). reflexivity.
Qed.

Lemma invoke_run ep :
  exists v : bool -> Managed,
    forall thiz (args : Args (signature ep)) w,
      well_typed w (signature ep) args = true ->
      exists r w',
        invoke ep thiz args w = Done r w' /\
        view w' r = Some (v (g_daemonRunning w)) /\
        g_daemonRunning w' = flag_after ep (g_daemonRunning w) /\
        exists objs, heap w' = (heap w ++ objs)%list.
Proof.
  destruct ep; eexists; intros thiz args [g h l] Hwt;
    cbn in args; destruct_args.
  1:{ cbn in Hwt. apply andb_true_iff in Hwt as [Hs _].
      destruct (nativeInit_run thiz _ _ Hs) as (path & _ & Hrun).
      cbn [invoke]. unfold as_void. rewrite (bind_Done _ _ _ _ _ Hrun).
      unfold ret. eexists _, _. split; [reflexivity|]. cbn.
      split; [reflexivity|]. split; [reflexivity|].
      exists []. cbn. rewrite app_nil_r. reflexivity. }
  all: run_invoke; eexists _, _; (split; [reflexivity|]).
  all: split; [unfold view, read_elem, deref; heap_norm; reflexivity|].
  all: split; [reflexivity|].
  all: first [ exists []; rewrite app_nil_r; reflexivity
             | eexists; reflexivity ].
Qed.

(** An outcome returns one value and leaves one flag. *)
Lemma returns_unique o v1 f1 v2 f2 :
  returns o v1 f1 -> returns o v2 f2 -> v1 = v2 /\ f1 = f2.
Proof.
  intros (r1 & w1 & E1 & V1 & F1) (r2 & w2 & E2 & V2 & F2).
  rewrite E1 in E2. injection E2 as <- <-.
  rewrite V1 in V2. injection V2 as <-. rewrite F1 in F2. auto.
Qed.

(** ** Sequences of calls and the flag *)

Lemma call_run c w :
  well_typed_call w c = true ->
  exists r w',
    call c w = Done r w' /\
    g_daemonRunning w' = flag_after (inv_entry c) (g_daemonRunning w) /\
    exists objs, heap w' = (heap w ++ objs)%list.
Proof.
  destruct c as [ep thiz args]. unfold well_typed_call, call. cbn.
  intros Hwt. destruct (invoke_run ep) as [v Hv].
  destruct (Hv thiz args w Hwt) as (r & w' & Hrun & _ & Hflag & Hheap).
  exists r, w'. auto.
Qed.

(** Arguments that are well typed when the session begins stay so. *)
Lemma well_typed_from_the_start cs :
  forall w,
    forallb (well_typed_call w) cs = true -> well_typed_session w cs = true.
Proof.
  induction cs as [|c cs IH]; intros w Hwt; [reflexivity|].
  cbn in Hwt. apply andb_true_iff in Hwt as [Hc Hcs].
  cbn [well_typed_session]. rewrite Hc. cbn.
  destruct (call_run c w Hc) as (r & w1 & -> & _ & objs & Hheap).
  apply IH. rewrite forallb_forall in *. intros c' Hin.
  apply well_typed_grows with w objs; [exact Hheap | apply Hcs, Hin].
Qed.

Lemma most_recent_lifecycle_start_or_stop cs e :
  most_recent_lifecycle cs = Some e -> e = epStart \/ e = epStop.
Proof.
  induction cs as [|c cs IH]; cbn; [discriminate|].
  destruct (most_recent_lifecycle cs) as [e'|].
  - intros [= <-]. apply IH. reflexivity.
  - destruct (inv_entry c); intros [= <-]; auto.
Qed.

Lemma run_flag cs :
  forall w,
    well_typed_session w cs = true ->
    exists w',
      run cs w = Done tt w' /\
      g_daemonRunning w' =
        match most_recent_lifecycle cs with
        | Some e => flag_after e (g_daemonRunning w)
        | None => g_daemonRunning w
        end.
Proof.
  induction cs as [|c cs IH]; intros w Hwt.
  - exists w. split; reflexivity.
  - cbn [well_typed_session] in Hwt. apply andb_true_iff in Hwt as [Hc Hcs].
    destruct (call_run c w Hc) as (r & w1 & Hrun & Hflag & _).
    rewrite Hrun in Hcs.
    destruct (IH w1 Hcs) as (w' & Hrest & Hflag').
    exists w'. split.
    + cbn [run]. rewrite (bind_Done _ _ _ _ _ Hrun). exact Hrest.
    + rewrite Hflag'. cbn [most_recent_lifecycle].
      destruct (most_recent_lifecycle cs) as [e|] eqn:E.
      * destruct (most_recent_lifecycle_start_or_stop _ _ E) as [-> | ->];
          reflexivity.
      * rewrite Hflag. destruct (inv_entry c); reflexivity.
Qed.

(** [started_last] on a sequence extended by one call. *)
Lemma most_recent_lifecycle_snoc cs c :
  most_recent_lifecycle (cs ++ [c]) =
    match inv_entry c with
    | epStart => Some epStart
    | epStop => Some epStop
    | _ => most_recent_lifecycle cs
    end.
Proof.
  induction cs as [|c' cs IH]; cbn.
  - destruct (inv_entry c); reflexivity.
  - rewrite IH. destruct (inv_entry c); try reflexivity;
      destruct (most_recent_lifecycle cs); reflexivity.
Qed.

Lemma started_last_nil : started_last [] = false.
Proof. reflexivity. Qed.

Lemma started_last_snoc_start cs c :
  inv_entry c = epStart -> started_last (cs ++ [c]) = true.
Proof.
  intros H. unfold started_last. rewrite most_recent_lifecycle_snoc, H.
  reflexivity.
Qed.

Lemma started_last_snoc_stop cs c :
  inv_entry c = epStop -> started_last (cs ++ [c]) = false.
Proof.
  intros H. unfold started_last. rewrite most_recent_lifecycle_snoc, H.
  reflexivity.
Qed.

Lemma started_last_snoc_other cs c :
  inv_entry c <> epStart -> inv_entry c <> epStop ->
  started_last (cs ++ [c]) = started_last cs.
Proof.
  intros H1 H2. unfold started_last. rewrite most_recent_lifecycle_snoc.
  destruct (inv_entry c); congruence.
Qed.

Lemma started_last_never_started cs :
  Forall (fun c => inv_entry c <> epStart) cs -> started_last cs = false.
Proof.
  unfold started_last. induction 1 as [|c cs Hc _ IH]; [reflexivity|].
  cbn. destruct (most_recent_lifecycle cs) as [e|].
  - exact IH.
  - destruct (inv_entry c); congruence.
Qed.

(** ** Examples *)

Example format_path :
  format "nativeInit called with path: %s (STUB)" ["/data/user/0/jami"] =
  "nativeInit called with path: /data/user/0/jami (STUB)".
Proof. reflexivity. Qed.

Example isRunning_when_loaded :
  nativeIsRunning NULL (loaded [] []) = Done JNI_FALSE (loaded [] []).
Proof. reflexivity. Qed.

Example video_devices_when_loaded :
  exists w',
    invoke epGetVideoDeviceList NULL tt (loaded [] [])
      = Done (JObject (Ref 0)) w' /\
    heap w' = [JavaArray "java/lang/String" [Ref 1; Ref 2];
               JavaString "camera://0"; JavaString "camera://1"].
Proof. eexists. split; reflexivity. Qed.

(** A null [dataPath] is not a string.  JNI leaves [GetStringUTFChars] on
    a null reference undefined; here it counts as a fault. *)
Example nativeInit_null thiz w :
  nativeInit thiz NULL w = Crash NullPointerException.
Proof. reflexivity. Qed.

(** ** The lifecycle flag *)

(** C1: from a freshly loaded library (flag [false]), after any sequence of
    calls of the bridge, [nativeIsRunning] returns [JNI_TRUE] exactly when
    the most recent of [nativeStart] and [nativeStop] in the sequence was
    [nativeStart], and [JNI_FALSE] otherwise: in particular before any
    [nativeStart], and after a [nativeStop] that no [nativeStart] preceded
    (see [started_last_never_started] and [started_last_snoc_stop]).  Every
    sequence runs to its end, whatever the order of its calls. *)
Theorem lifecycle_flag_follows_last_start_stop
    (h : list JavaObject) (l : list LogRecord) (cs : list Invocation)
    (thiz : jobject) :
  well_typed_session (loaded h l) cs = true ->
  exists w',
    run cs (loaded h l) = Done tt w' /\
    nativeIsRunning thiz w' =
      Done (if started_last cs then JNI_TRUE else JNI_FALSE) w'.
Proof.
  intros Hwt. destruct (run_flag cs _ Hwt) as (w' & Hrun & Hflag).
  exists w'. split; [exact Hrun|].
  unfold nativeIsRunning, get_g_daemonRunning, bind, ret, started_last.
  rewrite Hflag. cbn.
  destruct (most_recent_lifecycle cs) as [e|] eqn:E; [|reflexivity].
  destruct (most_recent_lifecycle_start_or_stop _ _ E) as [-> | ->];
    reflexivity.
Qed.

Lemma lifecycle_flag_follows_last_start_stop_witness :
  well_typed_session (loaded sample_heap []) sample_session = true /\
  exists w',
    run sample_session (loaded sample_heap []) = Done tt w' /\
    nativeIsRunning NULL w' = Done JNI_TRUE w'.
Proof.
  split; [reflexivity|].
  apply (lifecycle_flag_follows_last_start_stop sample_heap []
           sample_session NULL).
  reflexivity.
Defined.

(** ** Placeholder results *)

(** The claim of C2 as it is written fails on [nativeGetVideoDeviceList],
    a query: called in the freshly loaded library with an empty heap, it
    returns an array of two strings, so not every query returns an empty
    collection or mapping. *)
Lemma query_can_return_nonempty :
  returns (invoke epGetVideoDeviceList NULL tt (loaded [] []))
          (MArray "java/lang/String" [Some "camera://0"; Some "camera://1"])
          false /\
  ~ (forall ep thiz (args : Args (signature ep)) w,
       family ep = Query ->
       well_typed w (signature ep) args = true ->
       exists v f,
         returns (invoke ep thiz args w) v f /\ empty_collection v = true).
Proof.
  assert (Hvideo :
    returns (invoke epGetVideoDeviceList NULL tt (loaded [] []))
            (MArray "java/lang/String" [Some "camera://0"; Some "camera://1"])
            false).
  { eexists _, _. split; [reflexivity|]. split; reflexivity. }
  split; [exact Hvideo|]. intros H.
  destruct (H epGetVideoDeviceList NULL tt (loaded [] []) eq_refl eq_refl)
    as (v & f & Hv & Hempty).
  destruct (returns_unique _ _ _ _ _ Hv Hvideo) as [-> _].
  discriminate Hempty.
Qed.

(** C2 (amended): every query returns, for every input, a well-formed value
    that is not null and leaves the flag alone: an empty array or an empty
    map for the account, contact, conversation, call and conference
    queries; the integer 0 for [nativeLoadConversation]; and for the device
    queries the fixed device lists and the fixed current video device. *)
Theorem query_results (ep : EntryPoint) (thiz : jobject)
    (args : Args (signature ep)) (w : World) :
  family ep = Query ->
  exists v,
    returns (invoke ep thiz args w) v (g_daemonRunning w) /\
    v <> MNull /\
    match ep with
    | epGetVideoDeviceList =>
        v = MArray "java/lang/String" [Some "camera://0"; Some "camera://1"]
    | epGetCurrentVideoDevice => v = MString "camera://0"
    | epGetAudioOutputDeviceList =>
        v = MArray "java/lang/String" [Some "Speaker"; Some "Earpiece"]
    | epGetAudioInputDeviceList =>
        v = MArray "java/lang/String" [Some "Microphone"]
    | epLoadConversation => v = MInt 0
    | _ => empty_collection v = true
    end.
Proof.
  intros Hq. destruct ep; try discriminate Hq; cbn in args; destruct_args.
  all: eexists; split;
    [ run_invoke; eexists _, _; split; [reflexivity|]; split;
      [ unfold view, read_elem, deref; heap_norm; reflexivity | reflexivity ]
    | split; [discriminate | reflexivity] ].
Qed.

Lemma query_results_witness :
  family epGetAccountDetails = Query /\
  exists v,
    returns (invoke epGetAccountDetails NULL (Ref 1%nat, tt) sample_world)
            v false /\
    v <> MNull /\ empty_collection v = true.
Proof.
  split; [reflexivity|].
  apply (query_results epGetAccountDetails NULL (Ref 1%nat, tt) sample_world).
  reflexivity.
Defined.

(** The create-style entry points are these four. *)
Lemma family_Create ep :
  family ep = Create <->
  ep = epAddAccount \/ ep = epStartConversation \/
  ep = epPlaceCallWithMedia \/ ep = epCreateConfFromParticipantList.
Proof.
  split.
  - destruct ep; cbn; intros H; try discriminate H; auto.
  - intros [-> | [-> | [-> | ->]]]; reflexivity.
Qed.

(** The claim of C3 as it is written fails on
    [nativeCreateConfFromParticipantList], which creates a conference and
    is declared [void]: called in the freshly loaded library it returns
    nothing, so not every create-style call returns an identifier. *)
Lemma create_conference_returns_no_identifier :
  returns (invoke epCreateConfFromParticipantList NULL (NULL, (NULL, tt))
             (loaded [] []))
          MUnit false /\
  ~ (forall ep thiz (args : Args (signature ep)) w,
       family ep = Create ->
       exists s f,
         s <> "" /\ returns (invoke ep thiz args w) (MString s) f).
Proof.
  assert (Hconf :
    returns (invoke epCreateConfFromParticipantList NULL (NULL, (NULL, tt))
               (loaded [] []))
            MUnit false).
  { eexists _, _. split; [reflexivity|]. split; reflexivity. }
  split; [exact Hconf|]. intros H.
  destruct (H epCreateConfFromParticipantList NULL (NULL, (NULL, tt))
              (loaded [] []) eq_refl)
    as (s & f & _ & Hs).
  destruct (returns_unique _ _ _ _ _ Hs Hconf) as [Heq _].
  discriminate Heq.
Qed.

(** C3 (amended): for all inputs, [nativeAddAccount] returns
    "stub-account-id", [nativeStartConversation] returns
    "stub-conversation-id" and [nativePlaceCallWithMedia] returns
    "stub-call-id", each a non-empty constant; the fourth create-style entry
    point, [nativeCreateConfFromParticipantList], returns nothing.  None of
    them touches the flag. *)
Theorem create_results (thiz : jobject) (w : World) :
  (forall details,
     returns (invoke epAddAccount thiz (details, tt) w)
             (MString "stub-account-id") (g_daemonRunning w)) /\
  (forall accountId,
     returns (invoke epStartConversation thiz (accountId, tt) w)
             (MString "stub-conversation-id") (g_daemonRunning w)) /\
  (forall accountId to mediaList,
     returns (invoke epPlaceCallWithMedia thiz
                (accountId, (to, (mediaList, tt))) w)
             (MString "stub-call-id") (g_daemonRunning w)) /\
  (forall accountId participants,
     returns (invoke epCreateConfFromParticipantList thiz
                (accountId, (participants, tt)) w)
             MUnit (g_daemonRunning w)) /\
  "stub-account-id" <> "" /\ "stub-conversation-id" <> "" /\
  "stub-call-id" <> "".
Proof.
  repeat split; try discriminate; intros.
  all: run_invoke; eexists _, _; split; [reflexivity|]; split;
    [ unfold view; heap_norm; reflexivity | reflexivity ].
Qed.

(** ** Totality *)

(** The claim of C4 as it is written fails on [nativeInit], which hands its
    [dataPath] to [GetStringUTFChars] without a check: called with the null
    reference in the freshly loaded library, it ends in a fault, so not
    every call completes on every argument value. *)
Lemma nativeInit_null_path_faults :
  invoke epInit NULL (NULL, tt) (loaded [] []) = Crash NullPointerException /\
  ~ (forall ep thiz (args : Args (signature ep)) w,
       completes (invoke ep thiz args w)).
Proof.
  split; [reflexivity|]. intros H.
  destruct (H epInit NULL (NULL, tt) (loaded [] [])) as (a & w' & E).
  vm_compute in E. discriminate E.
Qed.

(** C4 (amended): every entry point other than [nativeInit] completes on
    every argument value whatsoever, in every world: any string, boolean,
    integer, object or array, null and dangling references included; and
    [nativeInit] completes whenever its [dataPath] is a string, whatever
    the string, the empty one included.  No other call path faults. *)
Theorem every_call_completes_on_a_string_path :
  (forall ep thiz (args : Args (signature ep)) w,
     ep <> epInit -> completes (invoke ep thiz args w)) /\
  (forall thiz dataPath w,
     is_string w dataPath = true ->
     completes (invoke epInit thiz (dataPath, tt) w)).
Proof.
  split.
  - intros ep thiz args w Hne.
    destruct ep; try congruence; cbn in args; destruct_args;
      run_invoke; eexists _, _; reflexivity.
  - intros thiz dataPath w Hs.
    destruct (nativeInit_run thiz _ _ Hs) as (path & _ & Hrun).
    cbn [invoke]. unfold as_void. rewrite (bind_Done _ _ _ _ _ Hrun).
    eexists _, _. reflexivity.
Qed.

Lemma every_call_completes_on_a_string_path_witness :
  (epSetAccountActive <> epInit /\
   completes (invoke epSetAccountActive (Ref 9%nat) (NULL, (-1, tt))
                (loaded [] []))) /\
  (is_string (loaded [JavaString ""] []) (Ref 0%nat) = true /\
   completes (invoke epInit NULL (Ref 0%nat, tt)
                (loaded [JavaString ""] []))).
Proof.
  split.
  - split; [discriminate|].
    apply (proj1 every_call_completes_on_a_string_path epSetAccountActive
             (Ref 9%nat) (NULL, (-1, tt)) (loaded [] [])).
    discriminate.
  - split; [reflexivity|].
    apply (proj2 every_call_completes_on_a_string_path NULL (Ref 0%nat)
             (loaded [JavaString ""] [])).
    reflexivity.
Defined.

(** ** Independence of the input *)

(** C5: the value an entry point returns does not depend on its arguments:
    two invocations of one entry point in one world, on any two argument
    tuples (and receivers), return the same value. *)
Theorem result_independent_of_arguments (ep : EntryPoint)
    (thiz1 thiz2 : jobject) (args1 args2 : Args (signature ep)) (w : World) :
  well_typed w (signature ep) args1 = true ->
  well_typed w (signature ep) args2 = true ->
  exists v f,
    returns (invoke ep thiz1 args1 w) v f /\
    returns (invoke ep thiz2 args2 w) v f.
Proof.
  intros H1 H2. destruct (invoke_run ep) as [v Hv].
  destruct (Hv thiz1 args1 w H1) as (r1 & w1 & Hrun1 & Hview1 & Hflag1 & _).
  destruct (Hv thiz2 args2 w H2) as (r2 & w2 & Hrun2 & Hview2 & Hflag2 & _).
  exists (v (g_daemonRunning w)), (flag_after ep (g_daemonRunning w)).
  split; [exists r1, w1 | exists r2, w2]; auto.
Qed.

Lemma result_independent_of_arguments_witness :
  well_typed sample_world (signature epGetAccountDetails) (Ref 1%nat, tt)
    = true /\
  well_typed sample_world (signature epGetAccountDetails) (Ref 2%nat, tt)
    = true /\
  exists v f,
    returns (invoke epGetAccountDetails NULL (Ref 1%nat, tt) sample_world)
            v f /\
    returns (invoke epGetAccountDetails (Ref 0%nat) (Ref 2%nat, tt)
               sample_world)
            v f.
Proof.
  split; [reflexivity|]. split; [reflexivity|].
  apply (result_independent_of_arguments epGetAccountDetails NULL
           (Ref 0%nat) (Ref 1%nat, tt) (Ref 2%nat, tt) sample_world);
    reflexivity.
Defined.

(** ** The frame of a call *)

(** C6: an entry point other than [nativeStart] and [nativeStop] completes
    with [g_daemonRunning], the only static of the bridge, unchanged; and
    [nativeInit] moreover leaves the heap as it found it: the path goes to
    the log and nothing of it is kept. *)
Theorem flag_changed_only_by_start_stop (ep : EntryPoint) (thiz : jobject)
    (args : Args (signature ep)) (w : World) :
  ep <> epStart -> ep <> epStop ->
  well_typed w (signature ep) args = true ->
  exists r w',
    invoke ep thiz args w = Done r w' /\
    g_daemonRunning w' = g_daemonRunning w /\
    (ep = epInit -> heap w' = heap w).
Proof.
  intros Hstart Hstop Hwt. destruct (invoke_run ep) as [v Hv].
  destruct (Hv thiz args w Hwt) as (r & w' & Hrun & _ & Hflag & _).
  exists r, w'. split; [exact Hrun|]. split.
  - rewrite Hflag. destruct ep; try reflexivity; congruence.
  - intros ->. cbn in args, Hwt. destruct_args.
    apply andb_true_iff in Hwt as [Hs _].
    destruct (nativeInit_run thiz _ _ Hs) as (path & _ & Hinit).
    cbn [invoke] in Hrun. unfold as_void in Hrun.
    rewrite (bind_Done _ _ _ _ _ Hinit) in Hrun.
    injection Hrun as _ <-. reflexivity.
Qed.

Lemma flag_changed_only_by_start_stop_witness :
  epInit <> epStart /\ epInit <> epStop /\
  well_typed sample_world (signature epInit) (Ref 1%nat, tt) = true /\
  exists r w',
    invoke epInit NULL (Ref 1%nat, tt) sample_world = Done r w' /\
    g_daemonRunning w' = g_daemonRunning sample_world /\
    (epInit = epInit -> heap w' = heap sample_world).
Proof.
  split; [discriminate|]. split; [discriminate|]. split; [reflexivity|].
  apply (flag_changed_only_by_start_stop epInit NULL (Ref 1%nat, tt)
           sample_world); [discriminate | discriminate | reflexivity].
Defined.

(** C7: a mutating call returns, whatever its arguments and the world,
    either nothing or one fixed boolean, and changes neither the flag nor
    the heap: all it does is write its log line. *)
Theorem mutating_calls_do_nothing (ep : EntryPoint) :
  family ep = Mutating ->
  exists v,
    (v = MUnit \/ v = MBoolean true \/ v = MBoolean false) /\
    forall thiz (args : Args (signature ep)) w,
    exists r w',
      invoke ep thiz args w = Done r w' /\
      view w' r = Some v /\
      g_daemonRunning w' = g_daemonRunning w /\
      heap w' = heap w.
Proof.
  intros Hm. destruct ep; try discriminate Hm.
  all: eexists; split;
    [ | intros thiz args w; cbn in args; destruct_args; run_invoke;
        eexists _, _; split; [reflexivity|]; split; [reflexivity|];
        split; reflexivity ].
  all: auto.
Qed.

Lemma mutating_calls_do_nothing_witness :
  family epHold = Mutating /\
  exists v,
    (v = MUnit \/ v = MBoolean true \/ v = MBoolean false) /\
    forall thiz (args : Args (signature epHold)) w,
    exists r w',
      invoke epHold thiz args w = Done r w' /\
      view w' r = Some v /\
      g_daemonRunning w' = g_daemonRunning w /\
      heap w' = heap w.
Proof.
  split; [reflexivity|].
  apply (mutating_calls_do_nothing epHold). reflexivity.
Defined.

(** C8: an entry point run twice on the same arguments, from two worlds
    that agree on the running flag, returns the same value and leaves the
    same flag. *)
Theorem calls_are_deterministic (ep : EntryPoint) (thiz : jobject)
    (args : Args (signature ep)) (w1 w2 : World) :
  g_daemonRunning w1 = g_daemonRunning w2 ->
  well_typed w1 (signature ep) args = true ->
  well_typed w2 (signature ep) args = true ->
  exists v f,
    returns (invoke ep thiz args w1) v f /\
    returns (invoke ep thiz args w2) v f.
Proof.
  intros Hg H1 H2. destruct (invoke_run ep) as [v Hv].
  destruct (Hv thiz args w1 H1) as (r1 & w1' & Hrun1 & Hview1 & Hflag1 & _).
  destruct (Hv thiz args w2 H2) as (r2 & w2' & Hrun2 & Hview2 & Hflag2 & _).
  exists (v (g_daemonRunning w1)), (flag_after ep (g_daemonRunning w1)).
  split; [exists r1, w1' | exists r2, w2']; auto.
  rewrite Hg. auto.
Qed.

Lemma calls_are_deterministic_witness :
  g_daemonRunning sample_world = g_daemonRunning busy_world /\
  well_typed sample_world (signature epInit) (Ref 2%nat, tt) = true /\
  well_typed busy_world (signature epInit) (Ref 2%nat, tt) = true /\
  exists v f,
    returns (invoke epInit NULL (Ref 2%nat, tt) sample_world) v f /\
    returns (invoke epInit NULL (Ref 2%nat, tt) busy_world) v f.
Proof.
  split; [reflexivity|]. split; [reflexivity|]. split; [reflexivity|].
  apply (calls_are_deterministic epInit NULL (Ref 2%nat, tt) sample_world
           busy_world); reflexivity.
Defined.

(** ** Device enumeration *)

(** C9: in every world, [nativeGetVideoDeviceList] returns the array
    ["camera://0"; "camera://1"], [nativeGetAudioOutputDeviceList] returns
    ["Speaker"; "Earpiece"], [nativeGetAudioInputDeviceList] returns
    ["Microphone"], and [nativeGetCurrentVideoDevice] returns "camera://0",
    an element of the video device list. *)
Theorem device_lists_fixed (thiz : jobject) (w : World) :
  returns (invoke epGetVideoDeviceList thiz tt w)
          (MArray "java/lang/String" [Some "camera://0"; Some "camera://1"])
          (g_daemonRunning w) /\
  returns (invoke epGetAudioOutputDeviceList thiz tt w)
          (MArray "java/lang/String" [Some "Speaker"; Some "Earpiece"])
          (g_daemonRunning w) /\
  returns (invoke epGetAudioInputDeviceList thiz tt w)
          (MArray "java/lang/String" [Some "Microphone"])
          (g_daemonRunning w) /\
  returns (invoke epGetCurrentVideoDevice thiz tt w)
          (MString "camera://0") (g_daemonRunning w) /\
  In (Some "camera://0") [Some "camera://0"; Some "camera://1"].
Proof.
  repeat split; try (left; reflexivity).
  all: run_invoke; eexists _, _; split; [reflexivity|]; split;
    [ unfold view, read_elem, deref; heap_norm; reflexivity | reflexivity ].
Qed.

(** ** The fixed booleans *)

(** C10: on every input, [nativeRegisterName], [nativeLookupName],
    [nativeLookupAddress] and [nativeExportToFile] return [JNI_FALSE],
    while [nativeRemoveConversation] and [nativeSetMessageDisplayed] return
    [JNI_TRUE]. *)
Theorem fixed_booleans_differ (thiz : jobject) (w : World) :
  (forall accountId name scheme password,
     exists w', nativeRegisterName thiz accountId name scheme password w
                = Done JNI_FALSE w') /\
  (forall accountId nameserver name,
     exists w', nativeLookupName thiz accountId nameserver name w
                = Done JNI_FALSE w') /\
  (forall accountId nameserver address,
     exists w', nativeLookupAddress thiz accountId nameserver address w
                = Done JNI_FALSE w') /\
  (forall accountId destPath scheme password,
     exists w', nativeExportToFile thiz accountId destPath scheme password w
                = Done JNI_FALSE w') /\
  (forall accountId conversationId,
     exists w', nativeRemoveConversation thiz accountId conversationId w
                = Done JNI_TRUE w') /\
  (forall accountId conversationUri messageId status,
     exists w', nativeSetMessageDisplayed thiz accountId conversationUri
                  messageId status w
                = Done JNI_TRUE w') /\
  JNI_FALSE <> JNI_TRUE.
Proof.
  repeat split; try discriminate; intros; eexists; reflexivity.
Qed.

(** * Further properties of the bridge *)

(** ** One entry point, run without any assumption *)

Lemma format_init_line path :
  format "nativeInit called with path: %s (STUB)" [path] =
  String.append "nativeInit called with path: " (String.append path " (STUB)").
Proof. reflexivity. Qed.

Lemma stub_run ep :
  ep <> epInit ->
  exists v : bool -> Managed,
    forall thiz (args : Args (signature ep)) w,
    exists r w' objs,
      invoke ep thiz args w = Done r w' /\
      g_daemonRunning w' = flag_after ep (g_daemonRunning w) /\
      heap w' = (heap w ++ objs)%list /\
      (forall path, logcat w' = (logcat w ++ lines_of ep path)%list) /\
      view w' r = Some (v (g_daemonRunning w)) /\
      handed_over r (length (heap w)) objs.
Proof.
  intros Hinit. destruct ep; try congruence; clear Hinit.
  all: eexists; intros thiz args [g h l]; cbn in args; destruct_args.
  all: run_invoke; eexists _, _, _; (split; [reflexivity|]); cbn.
  all: split; [reflexivity|].
  all: split; [first [ reflexivity | symmetry; apply app_nil_r ]|].
  all: split; [intros _; first [ reflexivity | symmetry; apply app_nil_r ]|].
  all: split; [unfold view, read_elem, deref; heap_norm; reflexivity|].
  all: first
    [ reflexivity
    | split; [reflexivity|]; eexists _, _; split; [reflexivity|];
      intros [|[|k]] o' Hk; cbn in Hk; try discriminate Hk;
      eexists _, _; (split; [reflexivity|]); cbn; auto ].
Qed.

Lemma lines_of_inj ep1 ep2 path1 path2 rec :
  lines_of ep1 path1 = [rec] -> lines_of ep2 path2 = [rec] -> ep1 = ep2.
Proof.
  intros H1 H2. rewrite <- H2 in H1. clear H2.
  destruct ep1; destruct ep2; try reflexivity;
    vm_compute in H1; discriminate H1.
Qed.

Lemma nativeInit_Done thiz dataPath w r w' :
  nativeInit thiz dataPath w = Done r w' ->
  exists path,
    deref w dataPath = Some (JavaString path) /\
    w' = {| g_daemonRunning := g_daemonRunning w;
            heap := heap w;
            logcat := logcat w ++ [init_line path] |}.
Proof.
  intros H. destruct (is_string w dataPath) eqn:E.
  - destruct (nativeInit_run thiz _ _ E) as (path & Hd & Hrun).
    rewrite Hrun in H. injection H as _ <-. exists path. split; [exact Hd|].
    reflexivity.
  - exfalso. unfold nativeInit, bind, GetStringUTFChars in H.
    unfold is_string in E. destruct dataPath as [|a]; [discriminate H|].
    destruct (deref w (Ref a)) as [[s| |]|]; discriminate.
Qed.

Lemma nativeInit_or_not ep : ep = epInit \/ ep <> epInit.
Proof. destruct ep; auto; right; discriminate. Qed.

(** The effect of any completed call on the flag, the heap and the log. *)
Lemma invoke_shape ep thiz (args : Args (signature ep)) w r w' :
  invoke ep thiz args w = Done r w' ->
  exists objs path,
    g_daemonRunning w' = flag_after ep (g_daemonRunning w) /\
    heap w' = (heap w ++ objs)%list /\
    logcat w' = (logcat w ++ lines_of ep path)%list /\
    handed_over r (length (heap w)) objs.
Proof.
  intros H. destruct (nativeInit_or_not ep) as [-> | Hne].
  - cbn in args. destruct_args. cbn [invoke] in H.
    unfold as_void, bind in H.
    destruct (nativeInit thiz j w) as [[] w1|f] eqn:E; [|discriminate H].
    injection H as <- <-.
    destruct (nativeInit_Done _ _ _ _ _ E) as (path & _ & ->).
    exists [], path. cbn. rewrite app_nil_r. auto.
  - destruct (stub_run ep Hne) as [v Hv].
    destruct (Hv thiz args w)
      as (r1 & w1 & objs & Hrun & Hf & Hh & Hl & _ & Ho).
    rewrite Hrun in H. injection H as <- <-.
    exists objs, "". auto.
Qed.

(** Reading a value back is stable under allocation. *)
Lemma read_elem_grows w w' objs x y :
  heap w' = (heap w ++ objs)%list ->
  read_elem w x = Some y -> read_elem w' x = Some y.
Proof.
  intros Hh. unfold read_elem, deref. destruct x as [|a]; [trivial|].
  rewrite Hh. destruct (heap w !! a) as [o|] eqn:E; [|discriminate].
  rewrite (lookup_old _ objs _ _ E). trivial.
Qed.

Lemma view_grows w w' objs r v :
  heap w' = (heap w ++ objs)%list ->
  view w r = Some v -> view w' r = Some v.
Proof.
  intros Hh. destruct r as [| | |[|a]]; cbn; trivial.
  rewrite Hh. destruct (heap w !! a) as [o|] eqn:E; [|discriminate].
  rewrite (lookup_old _ objs _ _ E). destruct o as [s|c elems|es]; trivial.
  destruct (mapM (read_elem w) elems) as [l|] eqn:Em; [|discriminate].
  cbn. intros [= <-].
  assert (Hm : mapM (read_elem w') elems = Some l).
  { apply mapM_Some. apply mapM_Some in Em.
    eapply Forall2_impl; [exact Em|].
    intros x y Hxy. eapply read_elem_grows; eauto. }
  rewrite Hm. reflexivity.
Qed.

(** A method that returns an object is neither [nativeInit] nor one of the
    two that assign the flag. *)
Lemma object_result_keeps_flag ep thiz (args : Args (signature ep)) w x w' :
  invoke ep thiz args w = Done (JObject x) w' ->
  ep <> epInit /\ forall b, flag_after ep b = b.
Proof.
  intros H. destruct ep; cbn in args; destruct_args;
    try (split; [discriminate | reflexivity]); exfalso.
  - cbn [invoke] in H. unfold as_void, bind in H.
    destruct (nativeInit thiz j w); discriminate H.
  - vm_compute in H. discriminate H.
  - vm_compute in H. discriminate H.
Qed.

(** The effect of a whole session on the heap and the log. *)
Lemma run_shape cs :
  forall w,
    well_typed_session w cs = true ->
    exists w' objs lines,
      run cs w = Done tt w' /\
      heap w' = (heap w ++ objs)%list /\
      logcat w' = (logcat w ++ lines)%list /\
      length lines = length (filter (fun c => negb (is_status_query c)) cs) /\
      Forall (fun rec => log_prio rec = ANDROID_LOG_INFO /\
                         log_tag rec = LOG_TAG) lines.
Proof.
  induction cs as [|c cs IH]; intros w Hwt.
  - exists w, [], []. rewrite !app_nil_r. auto.
  - cbn [well_typed_session] in Hwt. apply andb_true_iff in Hwt as [Hc Hcs].
    destruct (call_run c w Hc) as (r & w1 & Hrun & _).
    rewrite Hrun in Hcs.
    destruct (IH w1 Hcs)
      as (w' & objs' & lines' & Hrest & Hh' & Hl' & Hn' & Ht').
    destruct (invoke_shape _ _ _ _ _ _ Hrun) as (objs & path & _ & Hh & Hl & _).
    exists w', (objs ++ objs')%list,
      (lines_of (inv_entry c) path ++ lines')%list.
    split; [cbn [run]; rewrite (bind_Done _ _ _ _ _ Hrun); exact Hrest|].
    split; [rewrite Hh', Hh, app_assoc; reflexivity|].
    split; [rewrite Hl', Hl, app_assoc; reflexivity|].
    split.
    + rewrite length_app, Hn'. cbn [filter]. unfold filter at 2. cbn.
      unfold is_status_query. destruct (inv_entry c); cbn; reflexivity.
    + apply Forall_app. split; [|exact Ht'].
      destruct (inv_entry c); cbn; repeat constructor.
Qed.

(** ** Arguments *)

(** X1: [nativeInit] is the only method that can fault: every other entry
    point completes on any arguments at all, null and dangling references
    and out-of-range numbers included. *)
Theorem only_nativeInit_can_fault (ep : EntryPoint) (thiz : jobject)
    (args : Args (signature ep)) (w : World) :
  ep <> epInit -> completes (invoke ep thiz args w).
Proof.
  intros Hne. destruct (stub_run ep Hne) as [v Hv].
  destruct (Hv thiz args w) as (r & w' & objs & Hrun & _).
  exists r, w'. exact Hrun.
Qed.

Lemma only_nativeInit_can_fault_witness :
  epSetAccountActive <> epInit /\
  completes (invoke epSetAccountActive (Ref 9%nat) (NULL, (-1, tt))
               (loaded [] [])).
Proof.
  split; [discriminate|].
  apply (only_nativeInit_can_fault epSetAccountActive (Ref 9%nat)
           (NULL, (-1, tt)) (loaded [] [])).
  discriminate.
Defined.

(** X2: no entry point other than [nativeInit] looks at its receiver or its
    arguments: the whole outcome of a call, with the heap and the log it
    leaves, is the same for any two argument tuples. *)
Theorem arguments_are_ignored (ep : EntryPoint) (thiz1 thiz2 : jobject)
    (args1 args2 : Args (signature ep)) (w : World) :
  ep <> epInit ->
  invoke ep thiz1 args1 w = invoke ep thiz2 args2 w.
Proof.
  intros Hne. destruct ep; try congruence; cbn in args1, args2; destruct_args;
    reflexivity.
Qed.

Lemma arguments_are_ignored_witness :
  epSendMessage <> epInit /\
  invoke epSendMessage NULL
    (Ref 1%nat, (Ref 0%nat, (Ref 2%nat, (NULL, (0, tt))))) sample_world =
  invoke epSendMessage (Ref 7%nat)
    (Ref 2%nat, (Ref 2%nat, (Ref 0%nat, (Ref 1%nat, (42, tt))))) sample_world.
Proof.
  split; [discriminate|].
  apply (arguments_are_ignored epSendMessage NULL (Ref 7%nat)
           (Ref 1%nat, (Ref 0%nat, (Ref 2%nat, (NULL, (0, tt)))))
           (Ref 2%nat, (Ref 2%nat, (Ref 0%nat, (Ref 1%nat, (42, tt)))))
           sample_world).
  discriminate.
Defined.

(** ** The log *)

(** X3: [nativeInit] writes the path to the log as it is, between the fixed
    prefix and suffix, whatever characters the path holds (a path that
    looks like a format string is still only data), and touches neither the
    flag nor the heap. *)
Theorem nativeInit_logs_path_verbatim (thiz : jobject) (dataPath : jstring)
    (w : World) (path : string) :
  deref w dataPath = Some (JavaString path) ->
  nativeInit thiz dataPath w =
    Done tt
      {| g_daemonRunning := g_daemonRunning w;
         heap := heap w;
         logcat := logcat w ++
           [mkLogRecord ANDROID_LOG_INFO LOG_TAG
              (String.append "nativeInit called with path: "
                 (String.append path " (STUB)"))] |}.
Proof.
  intros Hd.
  assert (Hs : is_string w dataPath = true).
  { unfold is_string. rewrite Hd. reflexivity. }
  destruct (nativeInit_run thiz _ _ Hs) as (path' & Hd' & Hrun).
  rewrite Hd in Hd'. injection Hd' as <-. exact Hrun.
Qed.

Lemma nativeInit_logs_path_verbatim_witness :
  deref (loaded hostile_heap []) (Ref 0%nat)
    = Some (JavaString "/data/%s%n/100%") /\
  nativeInit NULL (Ref 0%nat) (loaded hostile_heap []) =
    Done tt
      {| g_daemonRunning := false;
         heap := hostile_heap;
         logcat :=
           [mkLogRecord ANDROID_LOG_INFO LOG_TAG
              "nativeInit called with path: /data/%s%n/100% (STUB)"] |}.
Proof.
  split; [reflexivity|].
  apply (nativeInit_logs_path_verbatim NULL (Ref 0%nat)
           (loaded hostile_heap []) "/data/%s%n/100%").
  reflexivity.
Defined.

(** X4: every entry point other than [nativeInit] and [nativeIsRunning]
    appends exactly one record to the log: priority INFO, tag
    "JamiBridge-JNI", and as message its own method name followed by
    " called (STUB)".  No line carries the name of another method. *)
Theorem stub_logs_its_own_name (ep : EntryPoint) (thiz : jobject)
    (args : Args (signature ep)) (w : World) :
  ep <> epInit -> ep <> epIsRunning ->
  exists r w',
    invoke ep thiz args w = Done r w' /\
    logcat w' =
      (logcat w ++
       [mkLogRecord ANDROID_LOG_INFO "JamiBridge-JNI"
          (String.append (method_name ep) " called (STUB)")])%list.
Proof.
  intros Hinit Hrunning. destruct (stub_run ep Hinit) as [v Hv].
  destruct (Hv thiz args w) as (r & w' & objs & Hrun & _ & _ & Hl & _).
  exists r, w'. split; [exact Hrun|]. rewrite (Hl "").
  destruct ep; try congruence; reflexivity.
Qed.

Lemma stub_logs_its_own_name_witness :
  epHangUpConference <> epInit /\ epHangUpConference <> epIsRunning /\
  exists r w',
    invoke epHangUpConference NULL (Ref 1%nat, (Ref 2%nat, tt)) busy_world
      = Done r w' /\
    logcat w' =
      (logcat busy_world ++
       [mkLogRecord ANDROID_LOG_INFO "JamiBridge-JNI"
          (String.append (method_name epHangUpConference)
             " called (STUB)")])%list.
Proof.
  split; [discriminate|]. split; [discriminate|].
  apply (stub_logs_its_own_name epHangUpConference NULL
           (Ref 1%nat, (Ref 2%nat, tt)) busy_world); discriminate.
Defined.

(** X5: the line a call writes tells which entry point was called: two
    completed calls that append the same record, in whatever worlds and on
    whatever arguments, are calls of the same entry point. *)
Theorem log_line_identifies_entry_point (ep1 ep2 : EntryPoint)
    (thiz1 thiz2 : jobject) (args1 : Args (signature ep1))
    (args2 : Args (signature ep2)) (w1 w2 : World) (r1 r2 : jvalue)
    (w1' w2' : World) (rec : LogRecord) :
  invoke ep1 thiz1 args1 w1 = Done r1 w1' ->
  invoke ep2 thiz2 args2 w2 = Done r2 w2' ->
  logcat w1' = (logcat w1 ++ [rec])%list ->
  logcat w2' = (logcat w2 ++ [rec])%list ->
  ep1 = ep2.
Proof.
  intros H1 H2 L1 L2.
  destruct (invoke_shape _ _ _ _ _ _ H1) as (_ & p1 & _ & _ & E1 & _).
  destruct (invoke_shape _ _ _ _ _ _ H2) as (_ & p2 & _ & _ & E2 & _).
  rewrite L1 in E1. rewrite L2 in E2.
  apply app_inv_head in E1. apply app_inv_head in E2.
  apply (lines_of_inj ep1 ep2 p1 p2 rec); symmetry; assumption.
Qed.

Lemma log_line_identifies_entry_point_witness :
  invoke epHold NULL (Ref 1%nat, (Ref 2%nat, tt)) sample_world
    = Done JVoid (with_stub_line epHold sample_world) /\
  invoke epHold (Ref 0%nat) (NULL, (NULL, tt)) busy_world
    = Done JVoid (with_stub_line epHold busy_world) /\
  logcat (with_stub_line epHold sample_world)
    = (logcat sample_world ++ [stub_line epHold])%list /\
  logcat (with_stub_line epHold busy_world)
    = (logcat busy_world ++ [stub_line epHold])%list /\
  epHold = epHold.
Proof.
  split; [reflexivity|]. split; [reflexivity|].
  split; [reflexivity|]. split; [reflexivity|].
  apply (log_line_identifies_entry_point epHold epHold NULL (Ref 0%nat)
           (Ref 1%nat, (Ref 2%nat, tt)) (NULL, (NULL, tt))
           sample_world busy_world JVoid JVoid
           (with_stub_line epHold sample_world)
           (with_stub_line epHold busy_world)
           (stub_line epHold)); reflexivity.
Defined.

(** X6: a session leaves the log it found untouched and appends exactly one
    record per call that is not [nativeIsRunning], each with priority INFO
    and the tag of the bridge: no warning and no error is ever logged. *)
Theorem session_log_one_line_per_call (cs : list Invocation) (w : World) :
  well_typed_session w cs = true ->
  exists w' lines,
    run cs w = Done tt w' /\
    logcat w' = (logcat w ++ lines)%list /\
    length lines = length (filter (fun c => negb (is_status_query c)) cs) /\
    Forall (fun rec => log_prio rec = ANDROID_LOG_INFO /\
                       log_tag rec = "JamiBridge-JNI") lines.
Proof.
  intros Hwt.
  destruct (run_shape cs w Hwt)
    as (w' & objs & lines & Hrun & _ & Hl & Hn & Ht).
  exists w', lines. auto.
Qed.

Lemma session_log_one_line_per_call_witness :
  well_typed_session sample_world
    (sample_session ++ [mkInvocation epIsRunning NULL tt]) = true /\
  exists w' lines,
    run (sample_session ++ [mkInvocation epIsRunning NULL tt]) sample_world
      = Done tt w' /\
    logcat w' = (logcat sample_world ++ lines)%list /\
    length lines = 9%nat /\
    Forall (fun rec => log_prio rec = ANDROID_LOG_INFO /\
                       log_tag rec = "JamiBridge-JNI") lines.
Proof.
  split; [reflexivity|].
  apply (session_log_one_line_per_call
           (sample_session ++ [mkInvocation epIsRunning NULL tt])
           sample_world).
  reflexivity.
Defined.

(** ** The heap *)

(** X7: a session never changes, moves or removes an object that was in the
    heap before it: the heap only grows at its end, so every reference the
    caller holds keeps its meaning. *)
Theorem session_keeps_existing_objects (cs : list Invocation) (w : World) :
  well_typed_session w cs = true ->
  exists w' objs,
    run cs w = Done tt w' /\
    heap w' = (heap w ++ objs)%list /\
    forall a o, heap w !! a = Some o -> heap w' !! a = Some o.
Proof.
  intros Hwt.
  destruct (run_shape cs w Hwt) as (w' & objs & lines & Hrun & Hh & _).
  exists w', objs. split; [exact Hrun|]. split; [exact Hh|].
  intros a o Ha. rewrite Hh. apply lookup_old, Ha.
Qed.

Lemma session_keeps_existing_objects_witness :
  well_typed_session sample_world sample_session = true /\
  exists w' objs,
    run sample_session sample_world = Done tt w' /\
    heap w' = (heap sample_world ++ objs)%list /\
    forall a o, heap sample_world !! a = Some o -> heap w' !! a = Some o.
Proof.
  split; [reflexivity|].
  apply (session_keeps_existing_objects sample_session sample_world).
  reflexivity.
Defined.

(** X8: an object a call hands back is never null and never an object the
    caller already had: its reference was free before the call and is live
    after it. *)
Theorem returned_object_is_fresh (ep : EntryPoint) (thiz : jobject)
    (args : Args (signature ep)) (w : World) (x : jobject) (w' : World) :
  invoke ep thiz args w = Done (JObject x) w' ->
  exists a o,
    x = Ref a /\ heap w !! a = None /\ heap w' !! a = Some o.
Proof.
  intros H.
  destruct (invoke_shape _ _ _ _ _ _ H) as (objs & _ & _ & Hh & _ & Ho).
  destruct Ho as (-> & o & rest & -> & _).
  exists (length (heap w)), o. split; [reflexivity|]. split.
  - apply lookup_ge_None. lia.
  - rewrite Hh. rewrite lookup_fresh_0. reflexivity.
Qed.

Lemma returned_object_is_fresh_witness :
  invoke epGetAccountDetails NULL (Ref 1%nat, tt) sample_world
    = Done (JObject (Ref 3%nat)) account_details_read /\
  exists a o,
    Ref 3%nat = Ref a /\ heap sample_world !! a = None /\
    heap account_details_read !! a = Some o.
Proof.
  split; [reflexivity|].
  apply (returned_object_is_fresh epGetAccountDetails NULL (Ref 1%nat, tt)
           sample_world (Ref 3%nat) account_details_read).
  reflexivity.
Defined.

(** X9: calling an entry point a second time hands back a second object,
    different from the first and with the same content: the caller may
    change one result without changing the other. *)
Theorem second_call_returns_equal_distinct_object (ep : EntryPoint)
    (thiz1 thiz2 : jobject) (args1 args2 : Args (signature ep))
    (w : World) (x1 : jobject) (w1 : World) (x2 : jobject) (w2 : World) :
  invoke ep thiz1 args1 w = Done (JObject x1) w1 ->
  invoke ep thiz2 args2 w1 = Done (JObject x2) w2 ->
  x1 <> x2 /\
  exists v, view w2 (JObject x1) = Some v /\ view w2 (JObject x2) = Some v.
Proof.
  intros H1 H2.
  destruct (object_result_keeps_flag _ _ _ _ _ _ H1) as [Hne Hflag].
  destruct (stub_run ep Hne) as [v Hv].
  destruct (Hv thiz1 args1 w)
    as (r1 & w1' & objs1 & Hrun1 & Hf1 & Hh1 & _ & Hv1 & Ho1).
  rewrite Hrun1 in H1. injection H1 as -> ->.
  destruct (Hv thiz2 args2 w1)
    as (r2 & w2' & objs2 & Hrun2 & _ & Hh2 & _ & Hv2 & Ho2).
  rewrite Hrun2 in H2. injection H2 as -> ->.
  destruct Ho1 as (-> & o1 & rest1 & -> & _). destruct Ho2 as (-> & _).
  split.
  - intros [= E]. rewrite Hh1, length_app in E. cbn in E. lia.
  - exists (v (g_daemonRunning w)). split.
    + apply view_grows with w1 objs2; assumption.
    + rewrite Hv2, Hf1, Hflag. reflexivity.
Qed.

Lemma second_call_returns_equal_distinct_object_witness :
  invoke epGetAccountDetails NULL (Ref 1%nat, tt) sample_world
    = Done (JObject (Ref 3%nat)) account_details_read /\
  invoke epGetAccountDetails NULL (Ref 2%nat, tt) account_details_read
    = Done (JObject (Ref 4%nat)) account_details_read_twice /\
  Ref 3%nat <> Ref 4%nat /\
  exists v,
    view account_details_read_twice (JObject (Ref 3%nat)) = Some v /\
    view account_details_read_twice (JObject (Ref 4%nat)) = Some v.
Proof.
  split; [reflexivity|]. split; [reflexivity|].
  apply (second_call_returns_equal_distinct_object epGetAccountDetails
           NULL NULL (Ref 1%nat, tt) (Ref 2%nat, tt) sample_world
           (Ref 3%nat) account_details_read
           (Ref 4%nat) account_details_read_twice); reflexivity.
Defined.

(** X10: nothing a call allocates is dropped: every object that is new in
    the heap after a call is the result of the call or an element of the
    array it returns.  A call that returns no object allocates nothing. *)
Theorem every_new_object_is_handed_over (ep : EntryPoint) (thiz : jobject)
    (args : Args (signature ep)) (w : World) (r : jvalue) (w' : World)
    (a : nat) (o : JavaObject) :
  invoke ep thiz args w = Done r w' ->
  heap w !! a = None ->
  heap w' !! a = Some o ->
  r = JObject (Ref a) \/
  exists b c elems,
    r = JObject (Ref b) /\
    heap w' !! b = Some (JavaArray c elems) /\
    In (Ref a) elems.
Proof.
  intros H Hnew Hlive.
  destruct (invoke_shape _ _ _ _ _ _ H) as (objs & _ & _ & Hh & _ & Ho).
  apply lookup_ge_None in Hnew.
  rewrite Hh in Hlive.
  replace a with (length (heap w) + (a - length (heap w)))%nat in * by lia.
  rewrite lookup_fresh in Hlive.
  destruct r as [| | |x]; cbn in Ho; try (subst objs; discriminate Hlive).
  destruct Ho as (-> & o1 & rest & -> & Hrest).
  destruct (a - length (heap w))%nat as [|k] eqn:Ek.
  - left. rewrite Nat.add_0_r. reflexivity.
  - right. cbn in Hlive.
    destruct (Hrest k o Hlive) as (c & elems & -> & Hin).
    exists (length (heap w)), c, elems. split; [reflexivity|]. split.
    + rewrite Hh. rewrite lookup_fresh_0. reflexivity.
    + exact Hin.
Qed.

Lemma every_new_object_is_handed_over_witness :
  invoke epGetAudioInputDeviceList NULL tt sample_world
    = Done (JObject (Ref 3%nat)) audio_inputs_read /\
  heap sample_world !! 4%nat = None /\
  heap audio_inputs_read !! 4%nat = Some (JavaString "Microphone") /\
  (JObject (Ref 3%nat) = JObject (Ref 4%nat) \/
   exists b c elems,
     JObject (Ref 3%nat) = JObject (Ref b) /\
     heap audio_inputs_read !! b = Some (JavaArray c elems) /\
     In (Ref 4%nat) elems).
Proof.
  split; [reflexivity|]. split; [reflexivity|]. split; [reflexivity|].
  apply (every_new_object_is_handed_over epGetAudioInputDeviceList NULL tt
           sample_world (JObject (Ref 3%nat)) audio_inputs_read 4%nat
           (JavaString "Microphone")); reflexivity.
Defined.

(** ** Sessions *)

(** X11: [nativeIsRunning] is a pure observation: it writes no log line
    and allocates nothing, so taking every status query out of a session
    changes nothing of what the session does or leaves behind. *)
Theorem status_queries_are_silent (cs : list Invocation) (w : World) :
  run (filter (fun c => negb (is_status_query c)) cs) w = run cs w.
Proof.
  revert w. induction cs as [|c cs IH]; intros w; [reflexivity|].
  destruct (is_status_query c) eqn:E.
  - rewrite filter_cons_False by (rewrite E; cbn; tauto).
    rewrite IH. destruct c as [ep thiz args]. unfold is_status_query in E.
    cbn in E. destruct ep; try discriminate E. reflexivity.
  - rewrite filter_cons_True by (rewrite E; cbn; tauto).
    cbn [run]. unfold bind. destruct (call c w); [apply IH | reflexivity].
Qed.

(** X12: whatever the flag was when a session began, it ends at [true] if
    the last [nativeStart] or [nativeStop] of the session is a
    [nativeStart], at [false] if it is a [nativeStop], and where it was if
    the session has neither: calls such as [nativeStartVideo] and
    [nativeStopVideo] do not count. *)
Theorem session_flag_from_any_world (cs : list Invocation) (w : World) :
  well_typed_session w cs = true ->
  exists w',
    run cs w = Done tt w' /\
    g_daemonRunning w' =
      match most_recent_lifecycle cs with
      | Some epStart => true
      | Some _ => false
      | None => g_daemonRunning w
      end.
Proof.
  intros Hwt. destruct (run_flag cs w Hwt) as (w' & Hrun & Hflag).
  exists w'. split; [exact Hrun|]. rewrite Hflag.
  destruct (most_recent_lifecycle cs) as [e|] eqn:E; [|reflexivity].
  destruct (most_recent_lifecycle_start_or_stop _ _ E) as [-> | ->];
    reflexivity.
Qed.

Lemma session_flag_from_any_world_witness :
  well_typed_session running_world
    [mkInvocation epStopVideo NULL tt;
     mkInvocation epInit NULL (Ref 0%nat, tt);
     mkInvocation epStartVideo NULL tt] = true /\
  exists w',
    run [mkInvocation epStopVideo NULL tt;
         mkInvocation epInit NULL (Ref 0%nat, tt);
         mkInvocation epStartVideo NULL tt] running_world = Done tt w' /\
    g_daemonRunning w' = true.
Proof.
  split; [reflexivity|].
  apply (session_flag_from_any_world
           [mkInvocation epStopVideo NULL tt;
            mkInvocation epInit NULL (Ref 0%nat, tt);
            mkInvocation epStartVideo NULL tt] running_world).
  reflexivity.
Defined.
